(** * streamlit_app.py: the SwiftUI documentation explorer

    A shallow embedding of [streamlit_app.py]: the cached loader
    [fetch_github_data] (lines 25-63) and the search block of the script
    (lines 66-100), together with the parts of [requests], [pandas], [re] and
    [st.cache_data] that the script calls.

    The script needs Python 3.12 (the replacement field of lines 83-84 spans
    two lines); the libraries are modelled as [requests] 2 and [pandas] 2
    behave, the search of [str.contains] being that of Python's [re].

    Conventions of the model.
    - Text is [string], and a character of it is a code point below 256
      (ASCII and Latin-1), not a byte of an encoding: the capital E with an
      acute accent is the one character [ascii_of_nat 201].  Text with a
      code point from 256 on is outside the model.
    - A computation yields an [outcome]: it returns, raises a Python
      exception, never returns ([Hang]), or leaves the part of the libraries
      that is modelled here ([Unmodelled]).  No theorem below draws a
      conclusion from [Unmodelled].
    - The widgets a computation emits ([st.error], [st.markdown],
      [st.warning]) are collected in order, next to its outcome. *)

From Stdlib Require Import String Ascii List Bool Arith ZArith Lia DecimalString.
Import ListNotations.
Open Scope string_scope.
Open Scope list_scope.

(* ================================================================= *)
(** ** Python text *)

(** [str.lower] on one character: the capital letters below 256 are [A-Z],
    and, in Latin-1, the code points 192 to 222 but for the multiplication
    sign 215; each has its small letter 32 places further. *)
Definition lower_char (c : ascii) : ascii :=
  let n := nat_of_ascii c in
  if (((65 <=? n) && (n <=? 90))
      || ((192 <=? n) && (n <=? 214))
      || ((216 <=? n) && (n <=? 222)))%nat
  then ascii_of_nat (n + 32) else c.

(** [s.lower()]. *)
Fixpoint py_lower (s : string) : string :=
  match s with
  | EmptyString => EmptyString
  | String c s' => String (lower_char c) (py_lower s')
  end.

(** [s.startswith(q)]. *)
Fixpoint startswith (q s : string) : bool :=
  match q, s with
  | EmptyString, _ => true
  | String _ _, EmptyString => false
  | String a q', String b s' => Ascii.eqb a b && startswith q' s'
  end.

(** [q in s] for two strings: literal substring containment. *)
Fixpoint py_in_str (q s : string) : bool :=
  startswith q s ||
  match s with
  | EmptyString => false
  | String _ s' => py_in_str q s'
  end.

(** The same containment as a proposition: [q] occurs somewhere in [s]. *)
Definition substring_of (q s : string) : Prop :=
  exists pre post, s = (pre ++ q ++ post)%string.

(** [str(n)] for a natural number. *)
Definition str_of_nat (n : nat) : string := NilZero.string_of_uint (Nat.to_uint n).

(** [str(z)] for an integer. *)
Definition str_of_Z (z : Z) : string := NilZero.string_of_int (Z.to_int z).

(* ================================================================= *)
(** ** Outcomes, exceptions and emitted widgets *)

Inductive exn_class :=
  (* requests.exceptions: every one a RequestException *)
  | ConnectionError | Timeout | HTTPError | RequestsJSONDecodeError
  (* json *)
  | JSONDecodeError
  (* builtins *)
  | KeyError | TypeError | ValueError | AttributeError
  (* re.error *)
  | ReError.

Record exn := mkExn { exn_cls : exn_class; exn_str : string }.

(** [isinstance(e, requests.exceptions.RequestException)]. *)
Definition is_RequestException (e : exn) : bool :=
  match exn_cls e with
  | ConnectionError | Timeout | HTTPError | RequestsJSONDecodeError => true
  | _ => false
  end.

(** [isinstance(e, json.JSONDecodeError)]: the decode error of [requests]
    derives from the one of [json]. *)
Definition is_JSONDecodeError (e : exn) : bool :=
  match exn_cls e with
  | RequestsJSONDecodeError | JSONDecodeError => true
  | _ => false
  end.

Inductive outcome (A : Type) : Type :=
  | Return (a : A)
  | Raise (e : exn)
  | Hang
  | Unmodelled.
Arguments Return {A} a.
Arguments Raise {A} e.
Arguments Hang {A}.
Arguments Unmodelled {A}.

Inductive st_element :=
  | st_error (body : string)
  | st_markdown (body : string)
  | st_warning (body : string).

(** A computation of the script: the widgets it emitted and how it ended. *)
Definition M (A : Type) : Type := (list st_element * outcome A)%type.

Definition ret {A} (a : A) : M A := ([], Return a).
Definition raise {A} (c : exn_class) (msg : string) : M A := ([], Raise (mkExn c msg)).
Definition lift {A} (o : outcome A) : M A := ([], o).
Definition emit (w : st_element) : M unit := ([w], Return tt).

Definition bind {A B} (m : M A) (k : A -> M B) : M B :=
  match m with
  | (out, Return a) => let (out', r) := k a in (out ++ out', r)
  | (out, Raise e) => (out, Raise e)
  | (out, Hang) => (out, Hang)
  | (out, Unmodelled) => (out, Unmodelled)
  end.

Declare Scope py_scope.
Delimit Scope py_scope with py.
Notation "x <- m ;; k" := (bind m (fun x => k))
  (at level 61, m at next level, right associativity) : py_scope.
Notation "m ;;; k" := (bind m (fun _ => k))
  (at level 61, right associativity) : py_scope.
Open Scope py_scope.

(* ================================================================= *)
(** ** re: the pattern language of [re.compile] and [Pattern.search]

    The fragment modelled: ordinary characters, [.], a backslash before a
    character that is neither a letter nor a digit, groups [( )], alternation
    [|], and the quantifiers [*], [+], [?] with their lazy forms.  Character
    sets, counted repeats, anchors, letter and digit escapes, the [(?...)]
    extensions and possessive quantifiers are outside it. *)

Inductive regex :=
  | Never                      (* matches nothing: only arises in derivatives *)
  | Empty                      (* the empty sequence *)
  | Lit (c : ascii)            (* LITERAL *)
  | AnyChar                    (* ANY: every character but a newline *)
  | Cat (r1 r2 : regex)
  | Alt (r1 r2 : regex)        (* BRANCH *)
  | Star (r : regex)           (* MAX_REPEAT / MIN_REPEAT 0.. *)
  | Plus (r : regex)           (* MAX_REPEAT / MIN_REPEAT 1.. *)
  | Opt (r : regex)            (* MAX_REPEAT / MIN_REPEAT 0..1 *)
  | Group (r : regex).         (* SUBPATTERN *)

(** One open [_parse_sub]: the branches finished so far and the items of the
    branch being read, both most recent first. *)
Record frame := mkFrame { alts : list regex; items : list regex }.

Definition empty_frame : frame := mkFrame [] [].

Definition push_item (r : regex) (f : frame) : frame :=
  mkFrame (alts f) (r :: items f).

Definition seq_of (items_rev : list regex) : regex :=
  fold_left (fun acc r => Cat r acc) items_rev Empty.

Definition branch_of (f : frame) : regex :=
  fold_left (fun acc b => Alt b acc) (alts f) (seq_of (items f)).

Definition is_repeat (r : regex) : bool :=
  match r with
  | Star _ | Plus _ | Opt _ => true
  | _ => false
  end.

Definition is_alnum (c : ascii) : bool :=
  let n := nat_of_ascii c in
  (((48 <=? n) && (n <=? 57)) || ((65 <=? n) && (n <=? 90)) || ((97 <=? n) && (n <=? 122)))%nat.

(** [re.error]; the text is the message without the position that follows it. *)
Definition re_error {A} (msg : string) : outcome A := Raise (mkExn ReError msg).

(** [sre_parse.parse], one character at a time; [stack] holds the enclosing
    groups. *)
Fixpoint sre_parse (p : list ascii) (stack : list frame) (cur : frame) : outcome regex :=
  match p with
  | [] =>
      match stack with
      | [] => Return (branch_of cur)
      | _ :: _ => re_error "missing ), unterminated subpattern"
      end
  | c :: rest =>
      if Ascii.eqb c "\" then
        match rest with
        | [] => re_error "bad escape (end of pattern)"
        | e :: rest' =>
            if is_alnum e then Unmodelled
            else sre_parse rest' stack (push_item (Lit e) cur)
        end
      else if Ascii.eqb c "." then sre_parse rest stack (push_item AnyChar cur)
      else if Ascii.eqb c "(" then
        match rest with
        | "?"%char :: _ => Unmodelled
        | _ => sre_parse rest (cur :: stack) empty_frame
        end
      else if Ascii.eqb c ")" then
        match stack with
        | [] => re_error "unbalanced parenthesis"
        | f :: stack' => sre_parse rest stack' (push_item (Group (branch_of cur)) f)
        end
      else if Ascii.eqb c "|" then
        sre_parse rest stack (mkFrame (seq_of (items cur) :: alts cur) [])
      else if Ascii.eqb c "*" || Ascii.eqb c "+" || Ascii.eqb c "?" then
        match items cur with
        | [] => re_error "nothing to repeat"
        | item :: before =>
            if is_repeat item then re_error "multiple repeat"
            else
              let rep :=
                if Ascii.eqb c "*" then Star item
                else if Ascii.eqb c "+" then Plus item
                else Opt item in
              let cur' := mkFrame (alts cur) (rep :: before) in
              match rest with
              | "?"%char :: rest' => sre_parse rest' stack cur'
              | "+"%char :: _ => Unmodelled
              | _ => sre_parse rest stack cur'
              end
        end
      else if Ascii.eqb c "[" || Ascii.eqb c "{" || Ascii.eqb c "^" || Ascii.eqb c "$"
      then Unmodelled
      else sre_parse rest stack (push_item (Lit c) cur)
  end.

(** [re.compile(pat)]. *)
Definition re_compile (pat : string) : outcome regex :=
  sre_parse (list_ascii_of_string pat) [] empty_frame.

Definition newline : ascii := ascii_of_nat 10.

Fixpoint nullable (r : regex) : bool :=
  match r with
  | Never | Lit _ | AnyChar => false
  | Empty | Star _ | Opt _ => true
  | Cat r1 r2 => nullable r1 && nullable r2
  | Alt r1 r2 => nullable r1 || nullable r2
  | Plus r | Group r => nullable r
  end.

(** What is left of [r] after it has read [c]. *)
Fixpoint deriv (c : ascii) (r : regex) : regex :=
  match r with
  | Never | Empty => Never
  | Lit a => if Ascii.eqb a c then Empty else Never
  | AnyChar => if Ascii.eqb c newline then Never else Empty
  | Cat r1 r2 =>
      Alt (Cat (deriv c r1) r2) (if nullable r1 then deriv c r2 else Never)
  | Alt r1 r2 => Alt (deriv c r1) (deriv c r2)
  | Star r1 => Cat (deriv c r1) (Star r1)
  | Plus r1 => Cat (deriv c r1) (Star r1)
  | Opt r1 => deriv c r1
  | Group r1 => deriv c r1
  end.

(** [pattern.match(s) is not None]: some prefix of [s] matches. *)
Fixpoint re_match (r : regex) (s : list ascii) : bool :=
  nullable r ||
  match s with
  | [] => false
  | c :: s' => re_match (deriv c r) s'
  end.

(** [pattern.search(s) is not None]: a match starts at some position. *)
Fixpoint re_search (r : regex) (s : list ascii) : bool :=
  re_match r s ||
  match s with
  | [] => false
  | _ :: s' => re_search r s'
  end.

(** The words a pattern matches, as a relation. *)
Inductive lang : regex -> list ascii -> Prop :=
  | lang_Empty : lang Empty []
  | lang_Lit c : lang (Lit c) [c]
  | lang_AnyChar c : c <> newline -> lang AnyChar [c]
  | lang_Cat r1 r2 u v : lang r1 u -> lang r2 v -> lang (Cat r1 r2) (u ++ v)
  | lang_Alt_l r1 r2 u : lang r1 u -> lang (Alt r1 r2) u
  | lang_Alt_r r1 r2 u : lang r2 u -> lang (Alt r1 r2) u
  | lang_Star_nil r : lang (Star r) []
  | lang_Star_cons r u v : lang r u -> lang (Star r) v -> lang (Star r) (u ++ v)
  | lang_Plus r u v : lang r u -> lang (Star r) v -> lang (Plus r) (u ++ v)
  | lang_Opt_nil r : lang (Opt r) []
  | lang_Opt_some r u : lang r u -> lang (Opt r) u
  | lang_Group r u : lang r u -> lang (Group r) u.

(** The characters [re] gives a meaning of their own (SPECIAL_CHARS, and the
    closing parenthesis). *)
Definition is_special (c : ascii) : bool :=
  existsb (Ascii.eqb c) (list_ascii_of_string ".\[{()*+?^$|").

(* ================================================================= *)
(** ** json: the value [response.json()] returns *)

(** A Python [dict] is the list of its items in insertion order; its keys are
    distinct, and [dict_get] reads the first item with the key. *)
#[local] Unset Elimination Schemes.
Inductive json :=
  | JNull
  | JBool (b : bool)
  | JInt (z : Z)
  | JFloat (literal : string)
  | JStr (s : string)
  | JList (l : list json)
  | JDict (d : list (string * json)).
#[local] Set Elimination Schemes.

Definition record : Type := list (string * json).

Fixpoint dict_get (k : string) (d : record) : option json :=
  match d with
  | [] => None
  | (k', v) :: d' => if String.eqb k k' then Some v else dict_get k d'
  end.

Definition dict_has (k : string) (d : record) : bool :=
  match dict_get k d with Some _ => true | None => false end.

(** [d[k] = v]: replaces the value of an existing key in place, appends a new
    key at the end. *)
Fixpoint dict_set (k : string) (v : json) (d : record) : record :=
  match d with
  | [] => [(k, v)]
  | (k', v') :: d' =>
      if String.eqb k k' then (k', v) :: d' else (k', v') :: dict_set k v d'
  end.

(** ['links' == x] for an element [x] of a list. *)
Definition is_str (k : string) (x : json) : bool :=
  match x with JStr s => String.eqb k s | _ => false end.

(** [k in data]. *)
Definition py_in (k : string) (data : json) : M bool :=
  match data with
  | JDict d => ret (dict_has k d)
  | JList l => ret (existsb (is_str k) l)
  | JStr s => ret (py_in_str k s)
  | JNull => raise TypeError "argument of type 'NoneType' is not iterable"
  | JBool _ => raise TypeError "argument of type 'bool' is not iterable"
  | JInt _ => raise TypeError "argument of type 'int' is not iterable"
  | JFloat _ => raise TypeError "argument of type 'float' is not iterable"
  end.

(** [data[k]] for a string [k]. *)
Definition py_getitem (data : json) (k : string) : M json :=
  match data with
  | JDict d =>
      match dict_get k d with
      | Some v => ret v
      | None => raise KeyError ("'" ++ k ++ "'")%string
      end
  | JList _ => raise TypeError "list indices must be integers or slices, not str"
  | JStr _ => raise TypeError "string indices must be integers, not 'str'"
  | JNull => raise TypeError "'NoneType' object is not subscriptable"
  | JBool _ => raise TypeError "'bool' object is not subscriptable"
  | JInt _ => raise TypeError "'int' object is not subscriptable"
  | JFloat _ => raise TypeError "'float' object is not subscriptable"
  end.

(* ================================================================= *)
(** ** requests: what the remote end does with one GET *)

(** Which exception [response.json()] raises on a body that is not JSON:
    the one of [requests] (a RequestException as well) or plain
    [json.JSONDecodeError], depending on the installed [requests]. *)
Inductive decode_error := DecodeByRequests | DecodeByJson.

Inductive body :=
  | JsonBody (v : json)
  | MalformedBody (how : decode_error) (msg : string).

(** An answer has its status, the reason phrase of its status line, the
    address it finally came from (that of the request, unless the remote end
    redirected) and its body. *)
Inductive remote :=
  | Unreachable (msg : string)     (* the connection cannot be made *)
  | TimedOut (msg : string)        (* the transport layer reports a timeout *)
  | Silent                         (* connected, and no byte ever arrives *)
  | Answered (status : Z) (reason final_url : string) (b : body).

Record Response := mkResponse {
  status_code : Z;
  reason : string;
  response_url : string;
  content : body
}.

(** [requests.get(url, timeout=timeout)]; [None] is the default of
    [requests]: wait without limit. *)
Definition requests_get (url : string) (timeout : option nat) (w : remote) : M Response :=
  match w with
  | Unreachable msg => raise ConnectionError msg
  | TimedOut msg => raise Timeout msg
  | Silent =>
      match timeout with
      | None => lift Hang
      | Some _ => raise Timeout "Read timed out."
      end
  | Answered st why final b => ret (mkResponse st why final b)
  end.

(** The text [raise_for_status] gives its [HTTPError]. *)
Definition http_error_msg (kind : string) (r : Response) : string :=
  (str_of_Z (status_code r) ++ " " ++ kind ++ " Error: " ++ reason r
     ++ " for url: " ++ response_url r)%string.

(** [response.raise_for_status()]. *)
Definition raise_for_status (r : Response) : M unit :=
  if ((400 <=? status_code r) && (status_code r <? 500))%Z
  then raise HTTPError (http_error_msg "Client" r)
  else if ((500 <=? status_code r) && (status_code r <? 600))%Z
  then raise HTTPError (http_error_msg "Server" r)
  else ret tt.

(** [response.json()]. *)
Definition response_json (r : Response) : M json :=
  match content r with
  | JsonBody v => ret v
  | MalformedBody DecodeByRequests msg => raise RequestsJSONDecodeError msg
  | MalformedBody DecodeByJson msg => raise JSONDecodeError msg
  end.

(* ================================================================= *)
(** ** pandas: the frame built from a list of records *)

(** A frame keeps its column labels and its rows; a row is the record it was
    built from, so a label a record does not carry reads as a missing value
    (NaN), [None] below. *)
Record DataFrame := mkDataFrame { columns : list string; rows : list record }.

Definition Series : Type := list (option json).

Definition has_label (k : string) (cols : list string) : bool :=
  existsb (String.eqb k) cols.

(** Labels of the records in the order they first appear. *)
Fixpoint add_labels (cols : list string) (r : record) : list string :=
  match r with
  | [] => cols
  | (k, _) :: r' =>
      add_labels (if has_label k cols then cols else cols ++ [k]) r'
  end.

Definition labels_of (recs : list record) : list string :=
  fold_left add_labels recs [].

(** The elements of a list when every one of them is a dict. *)
Fixpoint records_of (l : list json) : option (list record) :=
  match l with
  | [] => Some []
  | JDict d :: l' =>
      match records_of l' with
      | Some recs => Some (d :: recs)
      | None => None
      end
  | _ :: _ => None
  end.

(** No key occurs twice, as in a [dict]. *)
Fixpoint distinct_keys (r : record) : bool :=
  match r with
  | [] => true
  | (k, _) :: r' => negb (dict_has k r') && distinct_keys r'
  end.

(** The record is a [dict] whose values are all strings. *)
Definition textual (r : record) : bool :=
  forallb (fun kv => match snd kv with JStr _ => true | _ => false end) r
  && distinct_keys r.

(** [pd.DataFrame(v)], modelled on a list of dicts whose values are strings
    (an empty list gives the frame without rows and without columns; dicts
    are recognised by their distinct keys).  Such columns hold the strings as
    they are, and a missing value where a record lacks the key.  Numbers,
    booleans and [null] are outside the model: pandas converts them by
    column.  So is a dict of columns. *)
Definition pd_DataFrame (v : json) : M DataFrame :=
  match v with
  | JList l =>
      match records_of l with
      | Some recs =>
          if forallb textual recs then ret (mkDataFrame (labels_of recs) recs)
          else lift Unmodelled
      | None => lift Unmodelled
      end
  | _ => lift Unmodelled
  end.

(** [df[k]]. *)
Definition df_getitem (df : DataFrame) (k : string) : M Series :=
  if has_label k (columns df)
  then ret (map (dict_get k) (rows df))
  else raise KeyError ("'" ++ k ++ "'")%string.

(** [series.apply(f)]. *)
Fixpoint series_apply {B} (f : option json -> M B) (s : Series) : M (list B) :=
  match s with
  | [] => ret []
  | x :: s' => y <- f x ;; ys <- series_apply f s' ;; ret (y :: ys)
  end.

Fixpoint set_cells (k : string) (vals : list string) (rs : list record) : list record :=
  match rs, vals with
  | r :: rs', v :: vals' => dict_set k (JStr v) r :: set_cells k vals' rs'
  | _, _ => []
  end.

(** [df[k] = vals] for a series of strings on the index of the frame. *)
Definition df_setitem (df : DataFrame) (k : string) (vals : list string) : DataFrame :=
  mkDataFrame
    (if has_label k (columns df) then columns df else columns df ++ [k])
    (set_cells k vals (rows df)).

Fixpoint select {A} (mask : list bool) (l : list A) : list A :=
  match mask, l with
  | b :: mask', x :: l' => if b then x :: select mask' l' else select mask' l'
  | _, _ => []
  end.

(** [df[mask]] for a boolean series on the index of the frame. *)
Definition df_mask (df : DataFrame) (mask : list bool) : DataFrame :=
  mkDataFrame (columns df) (select mask (rows df)).

(** [series.str.lower()], modelled on a series of strings. *)
Definition str_lower (s : Series) : M (list string) :=
  series_apply
    (fun x => match x with Some (JStr t) => ret (py_lower t) | _ => lift Unmodelled end) s.

(** [series.str.contains(pat)]: [regex=True] is the default of pandas, so the
    pattern is compiled once and searched for in every element. *)
Definition str_contains (s : list string) (pat : string) : M (list bool) :=
  r <- lift (re_compile pat) ;;
  ret (map (fun t => re_search r (list_ascii_of_string t)) s).

(** [len(df)] and [df.empty]. *)
Definition df_len (df : DataFrame) : nat := length (rows df).
Definition df_empty (df : DataFrame) : bool :=
  match rows df, columns df with
  | [], _ | _, [] => true
  | _, _ => false
  end.

(* ================================================================= *)
(** ** streamlit_app.py *)

Definition BASE_DOC_URL : string := "https://developer.apple.com".

Definition url : string :=
  "https://raw.githubusercontent.com/mobiledge/mobiledge.github.io/master/search/swiftui-views.json".

(** The lambda of line 51, [f"{BASE_DOC_URL}{x}"], on one cell of the [url]
    column: a string is appended as it is, a missing value prints as [nan]. *)
Definition full_url_of (x : option json) : M string :=
  match x with
  | Some (JStr path) => ret (BASE_DOC_URL ++ path)%string
  | None => ret (BASE_DOC_URL ++ "nan")%string
  | Some _ => lift Unmodelled
  end.

(** Lines 39-56: the body of the [try]. *)
Definition fetch_body (w : remote) : M (option DataFrame) :=
  response <- requests_get url None w ;;
  raise_for_status response ;;;
  data <- response_json response ;;
  has_links <- py_in "links" data ;;
  if has_links then
    links <- py_getitem data "links" ;;
    df <- pd_DataFrame links ;;
    paths <- df_getitem df "url" ;;
    full <- series_apply full_url_of paths ;;
    ret (Some (df_setitem df "full_url" full))
  else
    emit (st_error "The data doesn't contain the expected 'links' structure") ;;;
    ret None.

(** Lines 38-63: the function without its decorator.  The two [except]
    clauses are tried in order; any other exception leaves the function. *)
Definition fetch_github_data_uncached (w : remote) : M (option DataFrame) :=
  match fetch_body w with
  | (out, Raise e) =>
      if is_RequestException e then
        (out ++ [st_error ("Failed to fetch data: " ++ exn_str e)%string], Return None)
      else if is_JSONDecodeError e then
        (out ++ [st_error ("Failed to parse JSON data: " ++ exn_str e)%string], Return None)
      else (out, Raise e)
  | r => r
  end.

(** The store of [@st.cache_data] for this function, which takes no
    argument: at most one memoized result, that is the value the body
    returned ([None] of Python included) with the widgets it emitted, and,
    for the proofs, the number of times the body has run. *)
Record cache := mkCache {
  memo : option (list st_element * option DataFrame);
  runs : nat
}.

Definition empty_cache : cache := mkCache None 0.

(** Lines 25-26: the decorated function.  A memoized result is returned, and
    its widgets are emitted again, without running the body; a value the body
    returns is memoized, whatever it is; an exception is not. *)
Definition fetch_github_data (c : cache) (w : remote) : cache * M (option DataFrame) :=
  match memo c with
  | Some (out, v) => (c, (out, Return v))
  | None =>
      match fetch_github_data_uncached w with
      | (out, Return v) => (mkCache (Some (out, v)) (S (runs c)), (out, Return v))
      | r => (mkCache None (S (runs c)), r)
      end
  end.

(** Lines 81-82: [data_df[data_df['title'].str.lower().str.contains(search_term)]]. *)
Definition filter_rows (data_df : DataFrame) (search_term : string) : M DataFrame :=
  title <- df_getitem data_df "title" ;;
  lowered <- str_lower title ;;
  mask <- str_contains lowered search_term ;;
  ret (df_mask data_df mask).

(** Lines 83-84: the count of the rows kept, and the search term. *)
Definition found (filtered_df : DataFrame) (search_term : string) : st_element :=
  st_markdown ("Found **" ++ str_of_nat (df_len filtered_df)
                 ++ "** components matching '*" ++ search_term ++ "*'")%string.

(** Lines 71-86 on frames as values: [typed] is what the text input holds. *)
Definition search (data_df : DataFrame) (typed : string) : M DataFrame :=
  let search_term := py_lower typed in
  if String.eqb search_term "" then ret data_df
  else
    filtered_df <- filter_rows data_df search_term ;;
    emit (found filtered_df search_term) ;;;
    ret filtered_df.

(** [f"{x}"] for a cell that holds a string. *)
Definition cell_text (x : option json) : M string :=
  match x with
  | Some (JStr s) => ret s
  | None => ret "nan"
  | Some _ => lift Unmodelled
  end.

(** [f"{row[k]}"] for a row of a frame with the columns [cols]: a label that
    is no column raises [KeyError]. *)
Definition row_text (cols : list string) (row : record) (k : string) : M string :=
  if has_label k cols then cell_text (dict_get k row)
  else raise KeyError ("'" ++ k ++ "'")%string.

(** Lines 91-100: one link per row, and the warning under an empty frame. *)
Fixpoint render_rows (cols : list string) (rs : list record) : M unit :=
  match rs with
  | [] => ret tt
  | row :: rs' =>
      t <- row_text cols row "title" ;;
      u <- row_text cols row "full_url" ;;
      emit (st_markdown ("[" ++ t ++ "](" ++ u ++ ")")%string) ;;;
      render_rows cols rs'
  end.

Definition no_results : string :=
  "No components found matching your search criteria. Try using a different search term or clearing the search box.".

Definition render (filtered_df : DataFrame) : M unit :=
  render_rows (columns filtered_df) (rows filtered_df) ;;;
  if df_empty filtered_df then emit (st_warning no_results) else ret tt.

(** *** The script with its objects

    Frames are objects: a variable of the script holds a reference into the
    heap, and two variables may hold the same one. *)
Definition ref : Type := nat.
Definition heap : Type := list DataFrame.

Definition deref (h : heap) (r : ref) : option DataFrame := nth_error h r.

(** A new object; nothing that was allocated before moves. *)
Definition alloc (h : heap) (df : DataFrame) : heap * ref := (h ++ [df], length h).

Record script_state := mkState {
  objects : heap;
  data_df : ref;
  filtered_df : option ref
}.

(** Lines 71-86 on the heap: indexing with a mask builds a new frame,
    the [else] branch binds [filtered_df] to the object of [data_df]. *)
Definition search_block (st : script_state) (typed : string) : M script_state :=
  match deref (objects st) (data_df st) with
  | None => lift Unmodelled
  | Some df =>
      let search_term := py_lower typed in
      if String.eqb search_term "" then
        ret (mkState (objects st) (data_df st) (Some (data_df st)))
      else
        filtered <- filter_rows df search_term ;;
        emit (found filtered search_term) ;;;
        let (h', r) := alloc (objects st) filtered in
        ret (mkState h' (data_df st) (Some r))
  end.

(** Lines 88-100 on the heap: the frame behind [filtered_df] is read. *)
Definition render_block (st : script_state) : M script_state :=
  match filtered_df st with
  | None => lift Unmodelled
  | Some r =>
      match deref (objects st) r with
      | None => lift Unmodelled
      | Some df => render df ;;; ret st
      end
  end.

(** Lines 66-100: one run of the script below the loader. *)
Definition script (c : cache) (w : remote) (typed : string)
  : cache * M (option script_state) :=
  let (c', loaded) := fetch_github_data c w in
  (c',
   loaded_df <- loaded ;;
   match loaded_df with
   | None => ret None
   | Some df =>
       let (h, r) := alloc [] df in
       st <- search_block (mkState h r None) typed ;;
       st' <- render_block st ;;
       ret (Some st')
   end).

(** The frame a state shows. *)
Definition shown (st : script_state) : option DataFrame :=
  match filtered_df st with
  | None => None
  | Some r => deref (objects st) r
  end.

(* ================================================================= *)
(** ** The filter as the specification words it, for comparison *)

(** Python's [str.isspace] on one character below 256. *)
Definition is_space (c : ascii) : bool :=
  let n := nat_of_ascii c in
  ((n =? 32) || ((9 <=? n) && (n <=? 13)) || ((28 <=? n) && (n <=? 31))
   || (n =? 133) || (n =? 160))%nat.

(** [q.strip() == ""]. *)
Definition is_blank (q : string) : bool :=
  forallb is_space (list_ascii_of_string q).

(** The lower-cased title of the row contains the lower-cased query. *)
Definition title_contains (q : string) (row : record) : bool :=
  match dict_get "title" row with
  | Some (JStr t) => py_in_str (py_lower q) (py_lower t)
  | _ => false
  end.

(** The rows whose title contains the query, in the order of the index. *)
Definition literal_filter (index : DataFrame) (q : string) : DataFrame :=
  mkDataFrame (columns index) (filter (title_contains q) (rows index)).

(** [filter(index, query)] of the specification. *)
Definition spec_filter (index : DataFrame) (q : string) : DataFrame :=
  if is_blank q then index else literal_filter index q.

(** A query without a character that [re] reads as syntax. *)
Definition plain (q : string) : bool :=
  forallb (fun c => negb (is_special c)) (list_ascii_of_string q).

(** Every row of the frame carries a string under [title]. *)
Definition has_str (k : string) (r : record) : bool :=
  match dict_get k r with Some (JStr _) => true | _ => false end.

Definition titled (df : DataFrame) : bool :=
  has_label "title" (columns df) && forallb (has_str "title") (rows df).

(* ================================================================= *)
(** ** Payloads *)

(** The payload [{"links": recs}]. *)
Definition links_payload (recs : list record) : json :=
  JDict [("links", JList (map JDict recs))].

(** A response with status 200 that carries the payload. *)
Definition serves (recs : list record) : remote :=
  Answered 200 "OK" url (JsonBody (links_payload recs)).

(** The record [{"title": t, "url": p}]. *)
Definition entry (t p : string) : record := [("title", JStr t); ("url", JStr p)].

(** A record with strings under [title] and [url]; other keys are free. *)
Definition well_formed (r : record) : bool := has_str "title" r && has_str "url" r.

(** A record whose [url], when it has one, is a string. *)
Definition path_ok (r : record) : bool :=
  match dict_get "url" r with
  | Some (JStr _) | None => true
  | Some _ => false
  end.

(** The row the loader makes of a record: the link is the base followed by
    the path, or by [nan] when the record has no path. *)
Definition with_full_url (r : record) : record :=
  dict_set "full_url"
    (JStr (BASE_DOC_URL ++ match dict_get "url" r with
                           | Some (JStr p) => p
                           | _ => "nan"
                           end)%string) r.

(** The index of the concrete scenario. *)
Definition scenario : list record :=
  [entry "Text" "/text"; entry "TextField" "/textfield"; entry "Button" "/button"].

Definition scenario_index : DataFrame :=
  mkDataFrame ["title"; "url"; "full_url"] (map with_full_url scenario).

(** The pattern that reads the characters of [q] one after the other. *)
Definition lits (q : list ascii) : regex :=
  fold_right (fun c acc => Cat (Lit c) acc) Empty q.

(** The title of a row that has one. *)
Definition title_of (r : record) : string :=
  match dict_get "title" r with
  | Some (JStr t) => t
  | _ => ""
  end.

(** The rows of a frame whose lower-cased title the pattern finds a match in. *)
Definition regex_filter (r : regex) (df : DataFrame) : DataFrame :=
  mkDataFrame (columns df)
    (filter (fun row => re_search r (list_ascii_of_string (py_lower (title_of row))))
       (rows df)).

(** The link the loader writes for a record (line 51). *)
Definition full_of (r : record) : string :=
  (BASE_DOC_URL ++ match dict_get "url" r with
                   | Some (JStr p) => p
                   | _ => "nan"
                   end)%string.

(** The frame the loader builds from a list of records: their labels, then
    [full_url], and one row per record, in order. *)
Definition index_of (recs : list record) : DataFrame :=
  mkDataFrame
    (if has_label "full_url" (labels_of recs) then labels_of recs
     else labels_of recs ++ ["full_url"])
    (map with_full_url recs).

(** A status [raise_for_status] lets through. *)
Definition passes (status : Z) : bool := negb ((400 <=? status) && (status <? 600))%Z.


(** Two records, the second without a path. *)
Definition second_lacks_path : list record :=
  [entry "Text" "/text"; [("title", JStr "Button")]].

(** The state of the script once the scenario is loaded: one object. *)
Definition scenario_state : script_state := mkState [scenario_index] 0 None.

(* ================================================================= *)
(** ** What the page shows *)

(** The text [f"{x}"] prints for a cell: the string it holds, [nan] for a
    missing value. *)
Definition text_of (k : string) (row : record) : string :=
  match dict_get k row with
  | Some (JStr s) => s
  | _ => "nan"
  end.

(** The cell under [k] holds a string or is missing. *)
Definition printable (k : string) (row : record) : bool :=
  match dict_get k row with
  | Some (JStr _) | None => true
  | Some _ => false
  end.

(** The link of line 93 for one row. *)
Definition link_of (row : record) : st_element :=
  st_markdown ("[" ++ text_of "title" row ++ "](" ++ text_of "full_url" row ++ ")")%string.

(** The error line of line 55. *)
Definition no_links : st_element :=
  st_error "The data doesn't contain the expected 'links' structure".

(** One list is the other with some elements left out, order kept. *)
Inductive subseq {A : Type} : list A -> list A -> Prop :=
  | subseq_nil : subseq [] []
  | subseq_skip x l l' : subseq l l' -> subseq l (x :: l')
  | subseq_keep x l l' : subseq l l' -> subseq (x :: l) (x :: l').

(** The calls of the loader over successive runs of the script, one state of
    the remote end per run. *)
Fixpoint reruns (c : cache) (ws : list remote) : cache * list (M (option DataFrame)) :=
  match ws with
  | [] => (c, [])
  | w :: ws' =>
      let (c', r) := fetch_github_data c w in
      let (c'', rs) := reruns c' ws' in
      (c'', r :: rs)
  end.


(** The lower-cased titles of a frame, row by row. *)
Definition lowered_titles (df : DataFrame) : list string :=
  map (fun r => py_lower (title_of r)) (rows df).

(** Both cells that line 93 prints hold a string or are missing. *)
Definition row_printable (row : record) : bool :=
  printable "title" row && printable "full_url" row.


(** An index with a title in Latin-1, the word for the pastry with its
    capital E acute (code point 201), and the small e acute (233). *)
Definition accented_index : DataFrame :=
  mkDataFrame ["title"]
    [[("title", JStr (String (ascii_of_nat 201) "clair"))]; [("title", JStr "Button")]].

Definition e_acute : string := String (ascii_of_nat 233) "".

(* ================================================================= *)
(** * Properties *)

(** ** The matcher against the words of a pattern *)

Lemma nullable_lang r : nullable r = true <-> lang r [].
Proof.
  induction r; simpl; split; intros H;
    try discriminate; try reflexivity; try (now constructor).
  - inversion H.
  - inversion H.
  - inversion H.
  - apply andb_true_iff in H as [H1 H2].
    change (@nil ascii) with (@nil ascii ++ []). constructor; tauto.
  - inversion H as [| | | ? ? u v Hu Hv Hr Huv | | | | | | | |]; subst.
    apply app_eq_nil in Huv as [-> ->]. apply andb_true_iff; tauto.
  - apply orb_true_iff in H as [H | H]; [apply lang_Alt_l | apply lang_Alt_r]; tauto.
  - apply orb_true_iff. inversion H; subst; tauto.
  - change (@nil ascii) with (@nil ascii ++ []).
    constructor; [tauto | constructor].
  - inversion H as [| | | | | | | | ? u v Hu Hv Hr Huv | | |]; subst.
    apply app_eq_nil in Huv as [-> ->]. tauto.
  - constructor; tauto.
  - inversion H; subst; tauto.
Qed.

Lemma lang_Never s : ~ lang Never s.
Proof. intros H; inversion H. Qed.

Lemma deriv_sound c r : forall s, lang (deriv c r) s -> lang r (c :: s).
Proof.
  induction r; simpl; intros s H.
  - inversion H.
  - inversion H.
  - destruct (Ascii.eqb_spec c0 c) as [-> | _]; inversion H; constructor.
  - destruct (Ascii.eqb_spec c newline) as [_ | Hn]; inversion H; now constructor.
  - inversion H as [| | | | ? ? u Hl | ? ? u Hr | | | | | |]; subst.
    + inversion Hl as [| | | ? ? u1 v1 Hu Hv | | | | | | | |]; subst.
      change (c :: u1 ++ v1) with ((c :: u1) ++ v1). constructor; auto.
    + destruct (nullable r1) eqn:N; [| inversion Hr].
      change (c :: s) with ([] ++ c :: s).
      constructor; [now apply nullable_lang | auto].
  - inversion H; subst; [apply lang_Alt_l | apply lang_Alt_r]; auto.
  - inversion H as [| | | ? ? u v Hu Hv | | | | | | | |]; subst.
    change (c :: u ++ v) with ((c :: u) ++ v). apply lang_Star_cons; auto.
  - inversion H as [| | | ? ? u v Hu Hv | | | | | | | |]; subst.
    change (c :: u ++ v) with ((c :: u) ++ v). apply lang_Plus; auto.
  - apply lang_Opt_some; auto.
  - constructor; auto.
Qed.

Lemma deriv_Star c r u v :
  lang (deriv c r) u -> lang (Star r) v -> lang (deriv c (Star r)) (u ++ v).
Proof. intros; simpl; now constructor. Qed.

Lemma deriv_complete_gen r w :
  lang r w -> forall c s, w = c :: s -> lang (deriv c r) s.
Proof.
  induction 1; intros a s E; simpl; try discriminate.
  - injection E as -> <-. rewrite Ascii.eqb_refl. constructor.
  - injection E as -> <-.
    destruct (Ascii.eqb_spec a newline); [contradiction | constructor].
  - destruct u as [| b u'].
    + simpl in E. apply lang_Alt_r.
      assert (N : nullable r1 = true) by now apply nullable_lang.
      rewrite N. auto.
    + simpl in E. injection E as -> <-.
      apply lang_Alt_l. constructor; auto.
  - apply lang_Alt_l; auto.
  - apply lang_Alt_r; auto.
  - destruct u as [| b u'].
    + simpl in E. apply (IHlang2 a s E).
    + simpl in E. injection E as -> <-. constructor; auto.
  - destruct u as [| b u'].
    + simpl in E. apply (IHlang2 a s E).
    + simpl in E. injection E as -> <-. constructor; auto.
  - auto.
  - auto.
Qed.

Lemma deriv_lang c r s : lang (deriv c r) s <-> lang r (c :: s).
Proof.
  split; [apply deriv_sound | intros H; now apply (deriv_complete_gen r (c :: s))].
Qed.

(** [re_match] finds exactly the prefixes that are words of the pattern. *)
Lemma re_match_spec s : forall r,
  re_match r s = true <-> exists u v, s = u ++ v /\ lang r u.
Proof.
  induction s as [| c s IH]; intros r; simpl.
  - rewrite orb_false_r, nullable_lang. split.
    + intros H; now exists [], [].
    + intros (u & v & E & H). symmetry in E.
      apply app_eq_nil in E as [-> _]. exact H.
  - rewrite orb_true_iff, nullable_lang, IH. split.
    + intros [H | (u & v & -> & H)].
      * now exists [], (c :: s).
      * exists (c :: u), v. split; [reflexivity | now apply deriv_lang].
    + intros (u & v & E & H). destruct u as [| b u].
      * now left.
      * simpl in E. injection E as <- ->. right.
        exists u, v. split; [reflexivity | now apply deriv_lang].
Qed.

(** [re_search] finds exactly the strings with a word of the pattern inside. *)
Lemma re_search_spec r s :
  re_search r s = true <-> exists pre u post, s = pre ++ u ++ post /\ lang r u.
Proof.
  induction s as [| c s IH]; cbn [re_search].
  - rewrite orb_false_r, re_match_spec. split.
    + intros (u & v & E & H). now exists [], u, v.
    + intros (pre & u & post & E & H). symmetry in E.
      apply app_eq_nil in E as [-> E]. now exists u, post.
  - rewrite orb_true_iff, re_match_spec, IH. split.
    + intros [(u & v & E & H) | (pre & u & post & -> & H)].
      * now exists [], u, v.
      * now exists (c :: pre), u, post.
    + intros (pre & u & post & E & H). destruct pre as [| b pre].
      * left. now exists u, post.
      * simpl in E. injection E as <- ->. right. now exists pre, u, post.
Qed.

(** ** Literal text *)

Lemma list_ascii_app a b :
  list_ascii_of_string (a ++ b)%string = list_ascii_of_string a ++ list_ascii_of_string b.
Proof. induction a as [| c a IH]; simpl; [reflexivity | now rewrite IH]. Qed.

Lemma startswith_spec q : forall s,
  startswith q s = true <-> exists post, s = (q ++ post)%string.
Proof.
  induction q as [| a q IH]; intros s; simpl.
  - split; [intros _; now exists s | reflexivity].
  - destruct s as [| b s].
    + split; [discriminate | intros (post & E); discriminate].
    + rewrite andb_true_iff, IH. split.
      * intros (E & post & ->). apply Ascii.eqb_eq in E as ->. now exists post.
      * intros (post & E). injection E as -> ->.
        split; [apply Ascii.eqb_refl | now exists post].
Qed.

(** [q in s] holds exactly when [q] occurs in [s]. *)
Lemma py_in_str_spec q s : py_in_str q s = true <-> substring_of q s.
Proof.
  unfold substring_of. induction s as [| c s IH]; cbn [py_in_str].
  - rewrite orb_false_r, startswith_spec. split.
    + intros (post & E). now exists EmptyString, post.
    + intros (pre & post & E). destruct pre; [| discriminate].
      now exists post.
  - rewrite orb_true_iff, startswith_spec, IH. split.
    + intros [(post & E) | (pre & post & ->)].
      * now exists EmptyString, post.
      * now exists (String c pre), post.
    + intros (pre & post & E). destruct pre as [| b pre].
      * left. now exists post.
      * simpl in E. injection E as <- ->. right. now exists pre, post.
Qed.

Lemma substring_of_lists q s :
  substring_of q s <->
  exists pre post, list_ascii_of_string s = pre ++ list_ascii_of_string q ++ post.
Proof.
  split.
  - intros (pre & post & ->). exists (list_ascii_of_string pre), (list_ascii_of_string post).
    now rewrite !list_ascii_app.
  - intros (pre & post & E).
    exists (string_of_list_ascii pre), (string_of_list_ascii post).
    rewrite <- (string_of_list_ascii_of_string s), E.
    rewrite <- (string_of_list_ascii_of_string q) at 2.
    rewrite <- (list_ascii_of_string_of_list_ascii pre) at 1.
    rewrite <- (list_ascii_of_string_of_list_ascii post) at 1.
    rewrite <- !list_ascii_app. now rewrite !string_of_list_ascii_of_string.
Qed.

Lemma lang_lits q : forall u, lang (lits q) u <-> u = q.
Proof.
  induction q as [| c q IH]; intros u; simpl; split; intros H.
  - now inversion H.
  - subst; constructor.
  - inversion H as [| | | ? ? a b Ha Hb | | | | | | | |]; subst.
    inversion Ha; subst. apply IH in Hb as ->. reflexivity.
  - subst. change (c :: q) with ([c] ++ q). constructor; [constructor | now apply IH].
Qed.

(** Searching for the pattern of a literal text is looking for the text. *)
Lemma re_search_lits q s :
  re_search (lits (list_ascii_of_string q)) (list_ascii_of_string s) = py_in_str q s.
Proof.
  apply eq_true_iff_eq.
  rewrite re_search_spec, py_in_str_spec, substring_of_lists. split.
  - intros (pre & u & post & E & H). apply lang_lits in H as ->. now exists pre, post.
  - intros (pre & post & E). exists pre, (list_ascii_of_string q), post.
    split; [exact E | now apply lang_lits].
Qed.

Lemma seq_of_rev_lits q : seq_of (rev (map Lit q)) = lits q.
Proof.
  unfold seq_of. induction q as [| c q IH]; simpl; [reflexivity |].
  now rewrite fold_left_app, IH.
Qed.

Lemma not_special c :
  is_special c = false ->
  Ascii.eqb c "\" = false /\ Ascii.eqb c "." = false /\ Ascii.eqb c "(" = false /\
  Ascii.eqb c ")" = false /\ Ascii.eqb c "|" = false /\ Ascii.eqb c "*" = false /\
  Ascii.eqb c "+" = false /\ Ascii.eqb c "?" = false /\ Ascii.eqb c "[" = false /\
  Ascii.eqb c "{" = false /\ Ascii.eqb c "^" = false /\ Ascii.eqb c "$" = false.
Proof.
  unfold is_special; cbn [list_ascii_of_string existsb]. intros H.
  repeat (apply orb_false_elim in H as [? H]). repeat split; assumption.
Qed.

(** Ordinary characters are read as one literal each. *)
Lemma sre_parse_plain q : forall stack cur,
  forallb (fun c => negb (is_special c)) q = true ->
  sre_parse q stack cur =
  sre_parse [] stack (mkFrame (alts cur) (rev (map Lit q) ++ items cur)).
Proof.
  induction q as [| c q IH]; intros stack cur H.
  - now destruct cur.
  - cbn [forallb] in H. apply andb_true_iff in H as [Hc Hq].
    apply negb_true_iff, not_special in Hc.
    destruct Hc as (H1 & H2 & H3 & H4 & H5 & H6 & H7 & H8 & H9 & H10 & H11 & H12).
    cbn [sre_parse].
    rewrite H1, H2, H3, H4, H5, H6, H7, H8, H9, H10, H11, H12. cbn [orb].
    rewrite (IH _ _ Hq). cbn [push_item alts items map rev].
    now rewrite <- app_assoc.
Qed.

Lemma re_compile_plain q :
  plain q = true -> re_compile q = Return (lits (list_ascii_of_string q)).
Proof.
  intros H. unfold re_compile. rewrite (sre_parse_plain _ _ _ H).
  cbn [sre_parse alts items empty_frame]. rewrite app_nil_r.
  unfold branch_of; cbn [alts items fold_left]. now rewrite seq_of_rev_lits.
Qed.

Lemma is_special_lower c : is_special (lower_char c) = is_special c.
Proof. destruct c as [[] [] [] [] [] [] [] []]; reflexivity. Qed.

Lemma plain_lower q : plain (py_lower q) = plain q.
Proof.
  unfold plain. induction q as [| c q IH]; simpl; [reflexivity |].
  now rewrite is_special_lower, IH.
Qed.

(** ** Computations *)

Lemma bind_ret {A B} (a : A) (k : A -> M B) : bind (ret a) k = k a.
Proof. unfold bind, ret. now destruct (k a). Qed.

Lemma bind_raise {A B} (e : exn) (k : A -> M B) :
  bind (lift (Raise e)) k = lift (Raise e).
Proof. reflexivity. Qed.

Lemma select_map {A} (p : A -> bool) (l : list A) : select (map p l) l = filter p l.
Proof.
  induction l as [| x l IH]; simpl; [reflexivity |].
  destruct (p x); now rewrite IH.
Qed.

Lemma str_lower_titles rs :
  forallb (has_str "title") rs = true ->
  str_lower (map (dict_get "title") rs) = ret (map (fun r => py_lower (title_of r)) rs).
Proof.
  unfold str_lower. induction rs as [| r rs IH]; intros H; [reflexivity |].
  cbn [forallb] in H. apply andb_true_iff in H as [Hr Hrs].
  cbn [map series_apply]. rewrite (IH Hrs).
  unfold has_str, title_of in *.
  destruct (dict_get "title" r) as [[]|]; try discriminate.
  now rewrite !bind_ret.
Qed.

(** Lines 81-82 on a frame whose titles are strings: a search term that
    compiles keeps the rows the pattern finds a match in. *)
Lemma filter_rows_compiled df term r :
  titled df = true ->
  re_compile term = Return r ->
  filter_rows df term = ret (regex_filter r df).
Proof.
  unfold titled, filter_rows, df_getitem. intros H C.
  apply andb_true_iff in H as [Hl Hs]. rewrite Hl, bind_ret.
  rewrite (str_lower_titles _ Hs), bind_ret.
  unfold str_contains. rewrite C. unfold lift.
  change (@pair (list st_element) (outcome regex) [] (Return r)) with (ret r).
  rewrite !bind_ret. unfold df_mask, regex_filter.
  now rewrite map_map, select_map.
Qed.

(** ... and a search term that does not compile raises the error of [re]. *)
Lemma filter_rows_error df term e :
  titled df = true ->
  re_compile term = Raise e ->
  filter_rows df term = ([], Raise e).
Proof.
  unfold titled, filter_rows, df_getitem. intros H C.
  apply andb_true_iff in H as [Hl Hs]. rewrite Hl, bind_ret.
  rewrite (str_lower_titles _ Hs), bind_ret.
  unfold str_contains. now rewrite C.
Qed.

Lemma regex_filter_lits df q :
  forallb (has_str "title") (rows df) = true ->
  regex_filter (lits (list_ascii_of_string (py_lower q))) df = literal_filter df q.
Proof.
  intros H. unfold regex_filter, literal_filter. f_equal.
  apply filter_ext_in. intros row Hin.
  rewrite forallb_forall in H. specialize (H row Hin).
  unfold has_str, title_contains, title_of in *. rewrite re_search_lits.
  now destruct (dict_get "title" row) as [[]|].
Qed.

Lemma filter_rows_plain df typed :
  titled df = true ->
  plain typed = true ->
  filter_rows df (py_lower typed) = ret (literal_filter df typed).
Proof.
  intros T P.
  assert (C := re_compile_plain (py_lower typed)). rewrite plain_lower in C.
  rewrite (filter_rows_compiled _ _ _ T (C P)).
  unfold titled in T. apply andb_true_iff in T as [_ Hs].
  now rewrite (regex_filter_lits _ _ Hs).
Qed.

Lemma is_space_plain c :
  is_space c = true -> is_special c = false /\ lower_char c = c.
Proof.
  destruct c as [[] [] [] [] [] [] [] []]; intros H;
    solve [discriminate H | split; reflexivity].
Qed.

Lemma is_blank_plain typed :
  is_blank typed = true -> plain typed = true /\ py_lower typed = typed.
Proof.
  unfold is_blank, plain. induction typed as [| c t IH]; [now split |].
  cbn [list_ascii_of_string forallb py_lower]. intros H.
  apply andb_true_iff in H as [Hc Ht].
  destruct (is_space_plain c Hc) as [S L]. destruct (IH Ht) as [P E].
  rewrite S, P, L, E. now split.
Qed.

(** X7.  A query of ordinary characters is looked for as it is written: on an
    index whose titles are strings and a query that is not empty and has no
    character [re] reads as syntax, the search block returns the rows whose
    lower-cased title contains the lower-cased query, in the order of the
    index, and reports their number.  Lower-casing is that of [str.lower] on
    the characters of the model, accented capitals of Latin-1 included. *)
Lemma search_plain df typed :
  titled df = true ->
  plain typed = true ->
  typed <> "" ->
  search df typed =
  ([found (literal_filter df typed) (py_lower typed)], Return (literal_filter df typed)).
Proof.
  intros T P N. unfold search.
  destruct (String.eqb_spec (py_lower typed) "") as [E | _].
  - destruct typed; [contradiction | discriminate].
  - assert (C := re_compile_plain (py_lower typed)). rewrite plain_lower in C.
    rewrite (filter_rows_compiled _ _ _ T (C P)), bind_ret.
    unfold titled in T. apply andb_true_iff in T as [_ Hs].
    now rewrite (regex_filter_lits _ _ Hs).
Qed.

(** ** Records and frames *)

Lemma dict_get_set_same k v r : dict_get k (dict_set k v r) = Some v.
Proof.
  induction r as [| [k' v'] r IH]; simpl.
  - now rewrite String.eqb_refl.
  - destruct (String.eqb_spec k k') as [-> | N]; simpl.
    + now rewrite String.eqb_refl.
    + destruct (String.eqb_spec k k'); [contradiction | exact IH].
Qed.

Lemma dict_get_set_other k k' v r :
  k <> k' -> dict_get k (dict_set k' v r) = dict_get k r.
Proof.
  intros N. induction r as [| [k0 v0] r IH]; simpl.
  - destruct (String.eqb_spec k k'); [contradiction | reflexivity].
  - destruct (String.eqb_spec k' k0) as [<- | N0]; simpl.
    + destruct (String.eqb_spec k k'); [contradiction | reflexivity].
    + now rewrite IH.
Qed.

Lemma has_label_app k cols k' :
  has_label k (cols ++ [k']) = has_label k cols || String.eqb k k'.
Proof. unfold has_label. rewrite existsb_app. simpl. now rewrite orb_false_r. Qed.

Lemma has_label_add_labels k r : forall cols,
  has_label k (add_labels cols r) = has_label k cols || dict_has k r.
Proof.
  unfold dict_has.
  induction r as [| [k' v] r IH]; intros cols; simpl.
  - now rewrite orb_false_r.
  - rewrite IH. destruct (String.eqb_spec k k') as [<- | N].
    + destruct (has_label k cols) eqn:E.
      * now rewrite E.
      * rewrite has_label_app, E, String.eqb_refl. reflexivity.
    + destruct (has_label k' cols); [reflexivity |].
      rewrite has_label_app. destruct (String.eqb_spec k k'); [contradiction |].
      now rewrite orb_false_r.
Qed.

(** A label is a column of the frame exactly when some record carries it. *)
Lemma has_label_labels_of k recs :
  has_label k (labels_of recs) = existsb (dict_has k) recs.
Proof.
  unfold labels_of.
  assert (G : forall cols,
             has_label k (fold_left add_labels recs cols)
             = has_label k cols || existsb (dict_has k) recs).
  { induction recs as [| r recs IH]; intros cols; simpl.
    - now rewrite orb_false_r.
    - now rewrite IH, has_label_add_labels, orb_assoc. }
  now rewrite G.
Qed.

Lemma records_of_dicts recs : records_of (map JDict recs) = Some recs.
Proof. induction recs as [| r recs IH]; simpl; [reflexivity | now rewrite IH]. Qed.

Lemma full_urls recs :
  forallb path_ok recs = true ->
  series_apply full_url_of (map (dict_get "url") recs) = ret (map full_of recs).
Proof.
  induction recs as [| r recs IH]; intros H; [reflexivity |].
  cbn [forallb] in H. apply andb_true_iff in H as [Hr Hrs].
  cbn [map series_apply]. rewrite (IH Hrs).
  unfold path_ok, full_of, full_url_of in *.
  destruct (dict_get "url" r) as [[]|]; try discriminate; now rewrite !bind_ret.
Qed.

Lemma set_cells_full_url recs :
  set_cells "full_url" (map full_of recs) recs = map with_full_url recs.
Proof. induction recs as [| r recs IH]; simpl; [reflexivity | now rewrite IH]. Qed.

Lemma raise_for_status_passes st why final b :
  passes st = true -> raise_for_status (mkResponse st why final b) = ret tt.
Proof.
  unfold passes, raise_for_status. cbn [status_code]. intros H.
  apply negb_true_iff in H.
  destruct (400 <=? st)%Z eqn:L, (st <? 500)%Z eqn:U; cbn [andb] in *;
    try (destruct (500 <=? st)%Z eqn:L', (st <? 600)%Z eqn:U'; cbn [andb] in *);
    try reflexivity; try discriminate; lia.
Qed.

Lemma textual_get k r v :
  textual r = true -> dict_get k r = Some v -> exists t, v = JStr t.
Proof.
  unfold textual. intros H. apply andb_true_iff in H as [H _]. revert H.
  induction r as [| [k' v'] r IH]; [discriminate |].
  cbn [forallb dict_get snd]. intros H. apply andb_true_iff in H as [Hv Hr].
  destruct (String.eqb k k').
  - intros E. injection E as <-. destruct v'; try discriminate. now eexists.
  - now apply IH.
Qed.

Lemma textual_path_ok recs :
  forallb textual recs = true -> forallb path_ok recs = true.
Proof.
  intros H. rewrite forallb_forall in *. intros r Hr. specialize (H r Hr).
  unfold path_ok. destruct (dict_get "url" r) as [v |] eqn:E; [| reflexivity].
  now destruct (textual_get _ _ _ H E) as [t ->].
Qed.

(** The loader on a payload of records whose paths, where present, are
    strings, and of which one at least has a path: one row per record. *)
Lemma load_records st reason u recs :
  passes st = true ->
  forallb textual recs = true ->
  existsb (dict_has "url") recs = true ->
  fetch_github_data_uncached (Answered st reason u (JsonBody (links_payload recs)))
  = ret (Some (index_of recs)).
Proof.
  intros Hst Ht Hu. assert (Hp := textual_path_ok _ Ht).
  assert (B : fetch_body (Answered st reason u (JsonBody (links_payload recs)))
              = ret (Some (index_of recs))).
  { unfold fetch_body. cbn [requests_get]. rewrite bind_ret.
    rewrite (raise_for_status_passes _ _ _ _ Hst), bind_ret.
    cbn [response_json content]. rewrite bind_ret.
    unfold links_payload at 1. cbn [py_in]. unfold dict_has. cbn [dict_get].
    rewrite String.eqb_refl, bind_ret.
    unfold links_payload. cbn [py_getitem dict_get]. rewrite String.eqb_refl, bind_ret.
    cbn [pd_DataFrame]. rewrite records_of_dicts, Ht, bind_ret.
    unfold df_getitem. cbn [columns rows].
    rewrite has_label_labels_of, Hu, bind_ret.
    rewrite (full_urls _ Hp), bind_ret.
    unfold df_setitem, index_of. cbn [columns rows].
    now rewrite set_cells_full_url. }
  unfold fetch_github_data_uncached. now rewrite B.
Qed.

(** The loader on an empty list of records: the frame has no column, and
    reading [url] from it raises. *)
Lemma load_no_records st reason u :
  passes st = true ->
  fetch_github_data_uncached (Answered st reason u (JsonBody (links_payload [])))
  = ([], Raise (mkExn KeyError "'url'")).
Proof.
  intros Hst. unfold fetch_github_data_uncached, fetch_body.
  cbn [requests_get]. rewrite bind_ret.
  rewrite (raise_for_status_passes _ _ _ _ Hst), bind_ret. reflexivity.
Qed.

(** ** The loader *)

Lemma well_formed_has_url r recs :
  forallb well_formed (r :: recs) = true -> existsb (dict_has "url") (r :: recs) = true.
Proof.
  simpl. intros H. apply andb_true_iff in H as [Hr _].
  unfold well_formed, has_str, dict_has in *. apply andb_true_iff in Hr as [_ Hu].
  now destruct (dict_get "url" r) as [[]|].
Qed.

Lemma with_full_url_title r : dict_get "title" (with_full_url r) = dict_get "title" r.
Proof. unfold with_full_url. apply dict_get_set_other. discriminate. Qed.

Lemma with_full_url_url r : dict_get "url" (with_full_url r) = dict_get "url" r.
Proof. unfold with_full_url. apply dict_get_set_other. discriminate. Qed.

Lemma with_full_url_link r : dict_get "full_url" (with_full_url r) = Some (JStr (full_of r)).
Proof. unfold with_full_url. apply dict_get_set_same. Qed.

(** X6.  The loader on one or more well-formed records whose values are all
    strings: as many rows as records, in the order received, each with its
    title, its path and the link made of the base and the path. *)
Lemma load_well_formed st reason u r recs :
  passes st = true ->
  forallb textual (r :: recs) = true ->
  forallb well_formed (r :: recs) = true ->
  fetch_github_data_uncached (Answered st reason u (JsonBody (links_payload (r :: recs))))
  = ret (Some (index_of (r :: recs)))
  /\ df_len (index_of (r :: recs)) = length (r :: recs)
  /\ forall i x, nth_error (r :: recs) i = Some x ->
       exists row p,
         nth_error (rows (index_of (r :: recs))) i = Some row
         /\ dict_get "title" row = dict_get "title" x
         /\ dict_get "url" row = Some (JStr p)
         /\ dict_get "full_url" row = Some (JStr (BASE_DOC_URL ++ p)%string).
Proof.
  intros Hst Ht Hw. split; [| split].
  - apply load_records; [exact Hst | exact Ht | now apply well_formed_has_url].
  - unfold df_len, index_of. cbn [rows]. apply length_map.
  - intros i x Hx. rewrite forallb_forall in Hw.
    assert (W := Hw x (nth_error_In _ _ Hx)).
    unfold well_formed, has_str in W. apply andb_true_iff in W as [_ Wu].
    destruct (dict_get "url" x) as [[| | | | p | |]|] eqn:E; try discriminate.
    exists (with_full_url x), p. unfold index_of. cbn [rows].
    rewrite nth_error_map, Hx. cbn [option_map].
    rewrite with_full_url_title, with_full_url_url, with_full_url_link.
    unfold full_of. now rewrite E.
Qed.

(** C6 (at the payload without records).  A payload whose [links] is the
    empty list has 0 records, all of them well formed, and the loader does not
    yield a frame of length 0: the frame built from the empty list has no
    [url] column, and line 51 raises [KeyError].  On one or more well-formed
    records the loader does what the claim says ([load_well_formed]). *)
Theorem load_of_no_records_raises :
  forallb well_formed [] = true
  /\ fetch_github_data_uncached (serves []) = ([], Raise (mkExn KeyError "'url'"))
  /\ forall df, fetch_github_data_uncached (serves []) <> ([], Return (Some df)).
Proof.
  split; [reflexivity | split].
  - apply load_no_records. reflexivity.
  - intros df. unfold serves. rewrite load_no_records by reflexivity. discriminate.
Qed.

(** C3 (failing inputs).  An exception that is neither a RequestException nor
    a JSONDecodeError leaves the decorated loader: the payload with an empty
    [links] raises [KeyError] and nothing is memoized, and a body that is the
    JSON [null] raises [TypeError] at the membership test of line 47. *)
Theorem load_lets_exceptions_through :
  fetch_github_data empty_cache (serves [])
  = (mkCache None 1, ([], Raise (mkExn KeyError "'url'")))
  /\ fetch_github_data empty_cache (Answered 200 "OK" url (JsonBody JNull))
     = (mkCache None 1,
        ([], Raise (mkExn TypeError "argument of type 'NoneType' is not iterable"))).
Proof. split; reflexivity. Qed.

(** C4 (as stated, refuted).  Of two records the second has no path: the
    loader returns a frame of two rows, not of one, and the second row is that
    record, its link the base followed by [nan]. *)
Lemma record_without_path_is_kept :
  fetch_github_data_uncached (serves second_lacks_path)
  = ret (Some (index_of second_lacks_path))
  /\ df_len (index_of second_lacks_path) = 2
  /\ df_len (index_of second_lacks_path) <> 2 - 1
  /\ nth_error (rows (index_of second_lacks_path)) 1
     = Some [("title", JStr "Button");
             ("full_url", JStr "https://developer.apple.comnan")].
Proof. repeat split; try reflexivity. discriminate. Qed.

(** C4 (amended).  The loader excludes no record.  For a payload of records
    whose values are all strings, and of which one at least has a path, the
    load succeeds with one row per record, in order, each with the title and
    the path of its record, missing where the record has none; the row of a
    record without a path has the link [base ++ "nan"]. *)
Theorem load_keeps_every_record st reason u recs :
  passes st = true ->
  forallb textual recs = true ->
  existsb (dict_has "url") recs = true ->
  fetch_github_data_uncached (Answered st reason u (JsonBody (links_payload recs)))
  = ret (Some (index_of recs))
  /\ df_len (index_of recs) = length recs
  /\ forall i r, nth_error recs i = Some r ->
       exists row,
         nth_error (rows (index_of recs)) i = Some row
         /\ dict_get "title" row = dict_get "title" r
         /\ dict_get "url" row = dict_get "url" r
         /\ (dict_get "url" r = None ->
             dict_get "full_url" row = Some (JStr (BASE_DOC_URL ++ "nan")%string)).
Proof.
  intros Hst Ht Hu. split; [| split].
  - now apply load_records.
  - unfold df_len, index_of. cbn [rows]. apply length_map.
  - intros i r Hr. exists (with_full_url r). unfold index_of. cbn [rows].
    rewrite nth_error_map, Hr. cbn [option_map].
    rewrite with_full_url_title, with_full_url_url, with_full_url_link.
    repeat split. intros E. unfold full_of. now rewrite E.
Qed.

Lemma load_keeps_every_record_witness :
  passes 200 = true
  /\ forallb textual second_lacks_path = true
  /\ existsb (dict_has "url") second_lacks_path = true
  /\ fetch_github_data_uncached (Answered 200 "OK" url (JsonBody (links_payload second_lacks_path)))
     = ret (Some (index_of second_lacks_path)).
Proof.
  split; [reflexivity | split; [reflexivity | split; [reflexivity |]]].
  exact (proj1 (load_keeps_every_record 200 "OK" url second_lacks_path
                  eq_refl eq_refl eq_refl)).
Defined.

(** ** The cache *)




(** ** The request *)

(** C7 (as stated, refuted).  The request of line 40 carries no timeout: when
    the source accepts the connection and never answers, the loader does not
    return.  With a timeout the same request would raise. *)
Lemma silent_source_hangs_the_loader :
  fetch_github_data_uncached Silent = ([], Hang)
  /\ snd (fetch_github_data empty_cache Silent) = ([], Hang)
  /\ requests_get url (Some 10) Silent = raise Timeout "Read timed out.".
Proof. repeat split. Qed.

(** C7 (amended).  A timeout that the transport layer reports is a
    RequestException and is handled as any transport failure is: the error
    line of line 59, and [None].  The request itself is issued without a
    timeout, and a source that never answers keeps the loader waiting. *)
Theorem reported_timeout_is_a_fetch_failure msg :
  fetch_github_data_uncached (TimedOut msg)
  = ([st_error ("Failed to fetch data: " ++ msg)%string], Return None)
  /\ fetch_github_data_uncached (TimedOut msg)
     = fetch_github_data_uncached (Unreachable msg)
  /\ fetch_github_data_uncached Silent = lift Hang.
Proof. repeat split. Qed.

(** ** The search block *)

(** C5 (as stated, refuted).  A query of one space is blank after trimming,
    and the search block does not return the index: the space is searched
    for, and no title of the scenario has one. *)
Lemma blank_query_is_searched :
  is_blank " " = true
  /\ spec_filter scenario_index " " = scenario_index
  /\ search scenario_index " "
     = ([st_markdown "Found **0** components matching '* *'"],
        Return (mkDataFrame (columns scenario_index) []))
  /\ snd (search scenario_index " ") <> Return scenario_index.
Proof. repeat split. discriminate. Qed.

(** C5 (amended).  On the empty query the search block returns the index
    itself, for every index, and emits nothing.  Nothing is trimmed: a query
    that is not empty and is white space only is looked for in the titles as
    it is, so that on an index whose titles are strings it keeps the rows
    whose title contains that white space, and no other row. *)
Theorem empty_query_returns_the_index df :
  search df "" = ret df
  /\ (forall st, deref (objects st) (data_df st) = Some df ->
        search_block st "" = ret (mkState (objects st) (data_df st) (Some (data_df st))))
  /\ (forall typed,
        is_blank typed = true ->
        typed <> "" ->
        titled df = true ->
        search df typed
        = ([found (literal_filter df typed) typed], Return (literal_filter df typed))).
Proof.
  split; [reflexivity | split].
  - intros st H. unfold search_block. now rewrite H.
  - intros typed B N T. destruct (is_blank_plain typed B) as [P L].
    unfold search. rewrite L.
    destruct (String.eqb_spec typed "") as [E | _]; [contradiction |].
    pose proof (filter_rows_plain df typed T P) as F. rewrite L in F.
    now rewrite F, bind_ret.
Qed.

Lemma empty_query_returns_the_index_witness :
  deref (objects scenario_state) (data_df scenario_state) = Some scenario_index
  /\ search_block scenario_state "" = ret (mkState [scenario_index] 0 (Some 0))
  /\ is_blank " " = true
  /\ " " <> ""
  /\ titled scenario_index = true
  /\ search scenario_index " "
     = ([st_markdown "Found **0** components matching '* *'"],
        Return (mkDataFrame (columns scenario_index) [])).
Proof.
  split; [reflexivity |].
  split; [exact (proj1 (proj2 (empty_query_returns_the_index scenario_index))
                   scenario_state eq_refl) |].
  split; [reflexivity | split; [discriminate | split; [reflexivity |]]].
  exact (proj2 (proj2 (empty_query_returns_the_index scenario_index))
           " " eq_refl ltac:(discriminate) eq_refl).
Defined.

(** C8.  The loader turns the three records of the scenario into the index
    of the scenario.  On that index the query [text] keeps Text and TextField,
    in that order, each with the base followed by its path as link, and the
    query [zzz] keeps no row. *)
Theorem scenario_text_and_zzz :
  fetch_github_data_uncached (serves scenario) = ret (Some scenario_index)
  /\ search scenario_index "text"
     = ([st_markdown "Found **2** components matching '*text*'"],
        Return (mkDataFrame ["title"; "url"; "full_url"]
                  [[("title", JStr "Text"); ("url", JStr "/text");
                    ("full_url", JStr (BASE_DOC_URL ++ "/text")%string)];
                   [("title", JStr "TextField"); ("url", JStr "/textfield");
                    ("full_url", JStr (BASE_DOC_URL ++ "/textfield")%string)]]))
  /\ search scenario_index "zzz"
     = ([st_markdown "Found **0** components matching '*zzz*'"],
        Return (mkDataFrame ["title"; "url"; "full_url"] []))
  /\ fst (snd (script empty_cache (serves scenario) "text"))
     = [st_markdown "Found **2** components matching '*text*'";
        st_markdown "[Text](https://developer.apple.com/text)";
        st_markdown "[TextField](https://developer.apple.com/textfield)"]
  /\ fst (snd (script empty_cache (serves scenario) "zzz"))
     = [st_markdown "Found **0** components matching '*zzz*'";
        st_warning no_results].
Proof. repeat split. Qed.

(** C1 (failing input).  On the index of the scenario the query [.] keeps
    all three rows, and no lower-cased title contains a full stop: the search
    term is handed to [str.contains] as a pattern.  A query of ordinary
    characters is looked for literally ([search_plain]). *)
Theorem full_stop_keeps_every_row :
  search scenario_index "."
  = ([st_markdown "Found **3** components matching '*.*'"], Return scenario_index)
  /\ literal_filter scenario_index "." = mkDataFrame (columns scenario_index) []
  /\ existsb (title_contains ".") (rows scenario_index) = false.
Proof. repeat split. Qed.




(** ** Objects of the script *)

Lemma deref_alloc_old h df r x :
  deref h r = Some x -> deref (fst (alloc h df)) r = Some x.
Proof.
  unfold deref, alloc. cbn [fst]. intros H.
  rewrite nth_error_app1; [exact H |]. apply nth_error_Some. now rewrite H.
Qed.

Lemma deref_alloc_new h df : deref (fst (alloc h df)) (snd (alloc h df)) = Some df.
Proof.
  unfold deref, alloc. cbn [fst snd].
  rewrite nth_error_app2 by lia. now rewrite Nat.sub_diag.
Qed.

(** The search block on the heap shows the frame the search block on values
    returns, emits the same widgets, and leaves every object as it was. *)
Lemma search_block_search st df typed :
  deref (objects st) (data_df st) = Some df ->
  fst (search_block st typed) = fst (search df typed)
  /\ match snd (search df typed) with
     | Return f =>
         exists st', snd (search_block st typed) = Return st'
                     /\ shown st' = Some f
                     /\ data_df st' = data_df st
                     /\ forall r x, deref (objects st) r = Some x ->
                                    deref (objects st') r = Some x
     | Raise e => snd (search_block st typed) = Raise e
     | Hang => snd (search_block st typed) = Hang
     | Unmodelled => snd (search_block st typed) = Unmodelled
     end.
Proof.
  intros H. unfold search_block, search. rewrite H.
  destruct (String.eqb (py_lower typed) "").
  - split; [reflexivity |]. cbn. eexists. split; [reflexivity |].
    unfold shown. cbn. repeat split; auto.
  - destruct (filter_rows df (py_lower typed)) as [out [f | e | |]]; cbn;
      try (split; reflexivity).
    split; [reflexivity |]. eexists. split; [reflexivity |].
    unfold shown. cbn [filtered_df objects data_df]. repeat split.
    + apply (deref_alloc_new (objects st) f).
    + intros r x Hr. now apply (deref_alloc_old (objects st) f).
Qed.

Lemma render_block_shown st :
  render_block st
  = match shown st with
    | Some df => render df ;;; ret st
    | None => lift Unmodelled
    end.
Proof.
  unfold render_block, shown. destruct (filtered_df st) as [r |]; [| reflexivity].
  now destruct (deref (objects st) r).
Qed.

Lemma render_block_returns st out st' :
  render_block st = (out, Return st') ->
  st' = st /\ exists df, shown st = Some df /\ render df = (out, Return tt).
Proof.
  rewrite render_block_shown. destruct (shown st) as [df |]; [| discriminate].
  unfold bind. destruct (render df) as [o [[] | e | |]] eqn:Rd; cbn; try discriminate.
  intros E. injection E as <- <-. rewrite app_nil_r. split; [reflexivity |].
  now exists df.
Qed.

(** C9.  A run of the search block and of the rendering below it leaves the
    object behind [data_df], and every other object there was, as it found
    them.  Run again on the same index with the same query, the two blocks
    emit the same widgets and show the same frame. *)
Theorem search_block_is_pure st typed out st1 out' st2 :
  search_block st typed = (out, Return st1) ->
  render_block st1 = (out', Return st2) ->
  deref (objects st2) (data_df st2) = deref (objects st) (data_df st)
  /\ (forall r x, deref (objects st) r = Some x -> deref (objects st2) r = Some x)
  /\ exists st3 st4,
       search_block st2 typed = (out, Return st3)
       /\ render_block st3 = (out', Return st4)
       /\ shown st4 = shown st2.
Proof.
  intros S R.
  apply render_block_returns in R as (-> & f & Hf & Rf).
  destruct (deref (objects st) (data_df st)) as [df |] eqn:D;
    [| unfold search_block in S; rewrite D in S; discriminate].
  destruct (search_block_search st df typed D) as [F1 O1].
  rewrite S in F1, O1. cbn [fst snd] in F1, O1.
  destruct (search df typed) as [o [f' | e | |]] eqn:V; cbn [fst snd] in F1, O1;
    try discriminate.
  destruct O1 as (st' & E & Sh & Dd & Old). injection E as <-. subst o.
  assert (f' = f) as -> by congruence.
  assert (D1 : deref (objects st1) (data_df st1) = Some df)
    by (rewrite Dd; now apply Old).
  split; [congruence | split; [exact Old |]].
  destruct (search_block_search st1 df typed D1) as [F2 O2].
  rewrite V in F2, O2. cbn [fst snd] in F2, O2.
  destruct O2 as (st3 & E3 & Sh3 & _ & _).
  exists st3, st3. repeat split.
  - destruct (search_block st1 typed) as [o3 r3]. cbn [fst snd] in F2, E3. now subst.
  - rewrite render_block_shown, Sh3, Rf. cbn. now rewrite app_nil_r.
  - congruence.
Qed.

Lemma search_block_is_pure_witness :
  let st1 := mkState [scenario_index; literal_filter scenario_index "text"] 0 (Some 1) in
  let found2 := [st_markdown "Found **2** components matching '*text*'"] in
  let links := [st_markdown "[Text](https://developer.apple.com/text)";
                st_markdown "[TextField](https://developer.apple.com/textfield)"] in
  search_block scenario_state "text" = (found2, Return st1)
  /\ render_block st1 = (links, Return st1)
  /\ deref (objects st1) (data_df st1)
     = deref (objects scenario_state) (data_df scenario_state).
Proof.
  intros st1 found2 links.
  split; [reflexivity | split; [reflexivity |]].
  exact (proj1 (search_block_is_pure scenario_state "text" found2 st1 links st1
                  eq_refl eq_refl)).
Defined.

(* ================================================================= *)
(** * Further properties of the loader *)

(** X1.  A response with a status from 400 to 599 is a reported fetch
    failure, whatever its body: [None], and the error line of line 59 with
    the text [raise_for_status] builds from the status, the kind (client
    below 500, server from 500 on), the reason phrase and the address. *)
Theorem error_status_is_a_fetch_failure st reason u b :
  (400 <= st < 600)%Z ->
  fetch_github_data_uncached (Answered st reason u b)
  = ([st_error ("Failed to fetch data: " ++ str_of_Z st ++ " "
                  ++ (if (st <? 500)%Z then "Client" else "Server")
                  ++ " Error: " ++ reason ++ " for url: " ++ u)%string],
     Return None).
Proof.
  intros [L U]. unfold fetch_github_data_uncached, fetch_body.
  cbn [requests_get]. rewrite bind_ret. unfold raise_for_status. cbn [status_code].
  destruct (st <? 500)%Z eqn:C.
  - apply Z.leb_le in L. now rewrite L.
  - assert (L5 : (500 <=? st)%Z = true) by (apply Z.leb_le; apply Z.ltb_ge in C; lia).
    apply Z.ltb_lt in U. rewrite andb_false_r, L5, U. reflexivity.
Qed.

Lemma error_status_is_a_fetch_failure_witness :
  (400 <= 404 < 600)%Z
  /\ fetch_github_data_uncached
       (Answered 404 "Not Found" url (JsonBody (links_payload scenario)))
     = ([st_error
           "Failed to fetch data: 404 Client Error: Not Found for url: https://raw.githubusercontent.com/mobiledge/mobiledge.github.io/master/search/swiftui-views.json"],
        Return None).
Proof.
  split; [lia |].
  apply (error_status_is_a_fetch_failure 404 "Not Found" url). lia.
Defined.

(** X2.  A body that is not JSON is a reported failure, and which line
    reports it depends on the exception [response.json()] raises: the decode
    error of [requests] is a RequestException and is caught by the first
    clause, as a fetch failure; only the plain error of [json] reaches the
    second clause. *)
Theorem malformed_body_is_reported st reason u how msg :
  passes st = true ->
  fetch_github_data_uncached (Answered st reason u (MalformedBody how msg))
  = ([st_error (match how with
                | DecodeByRequests => "Failed to fetch data: "
                | DecodeByJson => "Failed to parse JSON data: "
                end ++ msg)%string], Return None).
Proof.
  intros Hst. unfold fetch_github_data_uncached, fetch_body.
  cbn [requests_get]. rewrite bind_ret.
  rewrite (raise_for_status_passes _ _ _ _ Hst), bind_ret.
  now destruct how.
Qed.

Lemma malformed_body_is_reported_witness :
  passes 200 = true
  /\ fetch_github_data_uncached
       (Answered 200 "OK" url (MalformedBody DecodeByRequests "Expecting value"))
     = ([st_error "Failed to fetch data: Expecting value"], Return None).
Proof.
  split; [reflexivity |].
  exact (malformed_body_is_reported 200 "OK" url DecodeByRequests "Expecting value" eq_refl).
Defined.

(** X3.  A payload in which the membership test of line 47 finds no [links]
    (an object without that key, a list without that string, a string
    without that text) is reported with the line of line 55, and the loader
    returns [None]. *)
Theorem payload_without_links_is_reported st reason u data :
  passes st = true ->
  py_in "links" data = ret false ->
  fetch_github_data_uncached (Answered st reason u (JsonBody data))
  = ([no_links], Return None).
Proof.
  intros Hst Hin. unfold fetch_github_data_uncached, fetch_body.
  cbn [requests_get]. rewrite bind_ret.
  rewrite (raise_for_status_passes _ _ _ _ Hst), bind_ret.
  cbn [response_json content]. rewrite bind_ret, Hin, bind_ret. reflexivity.
Qed.

Lemma payload_without_links_is_reported_witness :
  passes 200 = true
  /\ py_in "links" (JDict [("items", JList [])]) = ret false
  /\ fetch_github_data_uncached
       (Answered 200 "OK" url (JsonBody (JDict [("items", JList [])])))
     = ([no_links], Return None).
Proof.
  split; [reflexivity | split; [reflexivity |]].
  exact (payload_without_links_is_reported 200 "OK" url (JDict [("items", JList [])])
           eq_refl eq_refl).
Defined.

(** X4.  A payload that is a list with the string [links] among its elements
    passes the membership test of line 47, and the subscript of line 48
    raises [TypeError], which no clause catches. *)
Theorem list_with_links_raises st reason u l :
  passes st = true ->
  existsb (is_str "links") l = true ->
  fetch_github_data_uncached (Answered st reason u (JsonBody (JList l)))
  = ([], Raise (mkExn TypeError "list indices must be integers or slices, not str")).
Proof.
  intros Hst Hin. unfold fetch_github_data_uncached, fetch_body.
  cbn [requests_get]. rewrite bind_ret.
  rewrite (raise_for_status_passes _ _ _ _ Hst), bind_ret.
  cbn [response_json content]. rewrite bind_ret. cbn [py_in]. rewrite Hin, bind_ret.
  reflexivity.
Qed.

Lemma list_with_links_raises_witness :
  passes 200 = true
  /\ existsb (is_str "links") [JStr "links"] = true
  /\ fetch_github_data_uncached (Answered 200 "OK" url (JsonBody (JList [JStr "links"])))
     = ([], Raise (mkExn TypeError "list indices must be integers or slices, not str")).
Proof.
  split; [reflexivity | split; [reflexivity |]].
  exact (list_with_links_raises 200 "OK" url [JStr "links"] eq_refl eq_refl).
Defined.

Lemma labels_without_url recs :
  existsb (dict_has "url") recs = false -> has_label "url" (labels_of recs) = false.
Proof. intros H. now rewrite has_label_labels_of. Qed.

(** X5.  On a payload whose [links] is a list of records with strings for
    values, the loader either returns the frame of all the records or raises:
    when some record has a path, it emits nothing and returns one row per
    record, so one row at least, with the columns [url] and [full_url]; when
    no record has a path, the empty list included, it raises [KeyError], so
    it never returns an index without rows from such a list. *)
Theorem records_load_or_raise st reason u recs :
  passes st = true ->
  forallb textual recs = true ->
  fetch_github_data_uncached (Answered st reason u (JsonBody (links_payload recs)))
  = (if existsb (dict_has "url") recs
     then ([], Return (Some (index_of recs)))
     else ([], Raise (mkExn KeyError "'url'")))
  /\ (existsb (dict_has "url") recs = true ->
      1 <= df_len (index_of recs)
      /\ df_len (index_of recs) = length recs
      /\ has_label "url" (columns (index_of recs)) = true
      /\ has_label "full_url" (columns (index_of recs)) = true).
Proof.
  intros Hst Ht. split.
  - destruct (existsb (dict_has "url") recs) eqn:Hu.
    + now apply load_records.
    + unfold fetch_github_data_uncached, fetch_body.
      cbn [requests_get]. rewrite bind_ret.
      rewrite (raise_for_status_passes _ _ _ _ Hst), bind_ret.
      cbn [response_json content]. rewrite bind_ret.
      unfold links_payload at 1. cbn [py_in]. unfold dict_has. cbn [dict_get].
      rewrite String.eqb_refl, bind_ret.
      unfold links_payload. cbn [py_getitem dict_get]. rewrite String.eqb_refl, bind_ret.
      cbn [pd_DataFrame]. rewrite records_of_dicts, Ht, bind_ret.
      unfold df_getitem. cbn [columns rows].
      now rewrite (labels_without_url _ Hu).
  - intros Hu. unfold df_len, index_of. cbn [rows columns]. rewrite length_map.
    assert (L : has_label "url" (labels_of recs) = true)
      by now rewrite has_label_labels_of.
    repeat split.
    + destruct recs; [discriminate | simpl; lia].
    + destruct (has_label "full_url" (labels_of recs)); [exact L |].
      now rewrite has_label_app, L.
    + destruct (has_label "full_url" (labels_of recs)) eqn:E; [exact E |].
      rewrite has_label_app, E. reflexivity.
Qed.

Lemma records_load_or_raise_witness :
  passes 200 = true
  /\ forallb textual [[("title", JStr "Text")]] = true
  /\ fetch_github_data_uncached (serves [[("title", JStr "Text")]])
     = ([], Raise (mkExn KeyError "'url'")).
Proof.
  split; [reflexivity | split; [reflexivity |]].
  exact (proj1 (records_load_or_raise 200 "OK" url [[("title", JStr "Text")]]
                  eq_refl eq_refl)).
Defined.

Lemma load_well_formed_witness :
  passes 200 = true
  /\ forallb textual scenario = true
  /\ forallb well_formed scenario = true
  /\ fetch_github_data_uncached (serves scenario) = ret (Some (index_of scenario))
  /\ df_len (index_of scenario) = 3.
Proof.
  split; [reflexivity | split; [reflexivity | split; [reflexivity |]]].
  pose proof (load_well_formed 200 "OK" url (entry "Text" "/text")
                [entry "TextField" "/textfield"; entry "Button" "/button"]
                eq_refl eq_refl eq_refl) as (H1 & H2 & _).
  split; [exact H1 | exact H2].
Defined.

(* ================================================================= *)
(** * Further properties of the search block *)

Lemma search_plain_witness :
  titled accented_index = true
  /\ plain e_acute = true
  /\ e_acute <> ""
  /\ search accented_index e_acute
     = ([st_markdown ("Found **1** components matching '*" ++ e_acute ++ "*'")%string],
        Return (mkDataFrame ["title"]
                  [[("title", JStr (String (ascii_of_nat 201) "clair"))]])).
Proof.
  split; [reflexivity | split; [reflexivity | split; [discriminate |]]].
  apply (search_plain accented_index e_acute); [reflexivity | reflexivity | discriminate].
Defined.

Lemma bind_returns {A B} (m : M A) (k : A -> M B) out b :
  bind m k = (out, Return b) ->
  exists o1 a o2, m = (o1, Return a) /\ k a = (o2, Return b) /\ out = o1 ++ o2.
Proof.
  unfold bind. destruct m as [o1 [a | e | |]]; try discriminate.
  destruct (k a) as [o2 r] eqn:K. intros H. injection H as <- ->.
  now exists o1, a, o2.
Qed.

Lemma subseq_nil_l {A} (l : list A) : subseq [] l.
Proof. induction l; now constructor. Qed.

Lemma subseq_refl {A} (l : list A) : subseq l l.
Proof. induction l; now constructor. Qed.

Lemma subseq_length {A} (l l' : list A) : subseq l l' -> length l <= length l'.
Proof. induction 1; simpl; lia. Qed.

Lemma subseq_In {A} (l l' : list A) x : subseq l l' -> In x l -> In x l'.
Proof.
  induction 1; simpl; intros H'; auto.
  destruct H' as [-> | H']; auto.
Qed.

Lemma select_subseq {A} (mask : list bool) : forall l : list A, subseq (select mask l) l.
Proof.
  induction mask as [| b mask IH]; intros l; simpl.
  - apply subseq_nil_l.
  - destruct l as [| x l]; [constructor |].
    destruct b; constructor; apply IH.
Qed.

Lemma filter_rows_mask df term out f :
  filter_rows df term = (out, Return f) -> exists mask, f = df_mask df mask.
Proof.
  unfold filter_rows. intros H.
  apply bind_returns in H as (o1 & title & o2 & _ & H & _).
  apply bind_returns in H as (o3 & lowered & o4 & _ & H & _).
  apply bind_returns in H as (o5 & mask & o6 & _ & H & _).
  injection H as _ <-. now exists mask.
Qed.

(** X8.  Whatever the query, a frame the search block returns has the columns
    of the index, and its rows are rows of the index in the order of the
    index: nothing is added, reordered or repeated, and the count it reports
    never exceeds the size of the index. *)
Theorem search_keeps_rows_in_order df typed out f :
  search df typed = (out, Return f) ->
  columns f = columns df
  /\ subseq (rows f) (rows df)
  /\ df_len f <= df_len df
  /\ forall row, In row (rows f) -> In row (rows df).
Proof.
  unfold search. intros H.
  assert (G : columns f = columns df /\ subseq (rows f) (rows df)).
  { destruct (String.eqb (py_lower typed) "").
    - injection H as _ <-. split; [reflexivity | apply subseq_refl].
    - apply bind_returns in H as (o1 & f' & o2 & F & H & _).
      apply bind_returns in H as (o3 & [] & o4 & _ & H & _).
      injection H as _ <-.
      apply filter_rows_mask in F as (mask & ->).
      split; [reflexivity | apply select_subseq]. }
  destruct G as [C S]. repeat split; try assumption.
  - now apply subseq_length.
  - intros row. now apply subseq_In.
Qed.

Lemma search_keeps_rows_in_order_witness :
  search scenario_index "ext.*d"
  = ([st_markdown "Found **1** components matching '*ext.*d*'"],
     Return (mkDataFrame (columns scenario_index)
               [with_full_url (entry "TextField" "/textfield")]))
  /\ subseq [with_full_url (entry "TextField" "/textfield")] (rows scenario_index).
Proof.
  split; [reflexivity |].
  exact (proj1 (proj2 (search_keeps_rows_in_order scenario_index "ext.*d" _ _ eq_refl))).
Defined.

Lemma lower_char_idem c : lower_char (lower_char c) = lower_char c.
Proof. destruct c as [[] [] [] [] [] [] [] []]; reflexivity. Qed.

Lemma py_lower_idem s : py_lower (py_lower s) = py_lower s.
Proof. induction s as [| c s IH]; simpl; [reflexivity | now rewrite lower_char_idem, IH]. Qed.

(** X9.  The case of the query does not matter, pattern or not: two queries
    with the same lower-cased text give the same result, on values and on
    the heap, and so does a query and its lower-cased text. *)
Theorem query_case_is_ignored df st a b :
  py_lower a = py_lower b ->
  search df a = search df b
  /\ search_block st a = search_block st b
  /\ search df (py_lower a) = search df b.
Proof.
  intros E. unfold search, search_block. rewrite py_lower_idem, E. repeat split.
Qed.

Lemma query_case_is_ignored_witness :
  py_lower "BuTToN" = py_lower "button"
  /\ search scenario_index "BuTToN" = search scenario_index "button".
Proof.
  split; [reflexivity |].
  exact (proj1 (query_case_is_ignored scenario_index scenario_state
                  "BuTToN" "button" eq_refl)).
Defined.

Lemma filter_rows_titled df term :
  titled df = true ->
  filter_rows df term
  = (mask <- str_contains (lowered_titles df) term ;; ret (df_mask df mask)).
Proof.
  unfold titled, filter_rows, df_getitem. intros H.
  apply andb_true_iff in H as [Hl Hs]. rewrite Hl, bind_ret.
  now rewrite (str_lower_titles _ Hs), bind_ret.
Qed.

(** X10.  The case of the titles does not matter either: on two indexes
    whose titles are strings and agree once lower-cased, every search term
    selects the same positions, or fails in the same way. *)
Theorem title_case_is_ignored df df' term :
  titled df = true ->
  titled df' = true ->
  lowered_titles df = lowered_titles df' ->
  exists m : M (list bool),
    filter_rows df term = (mask <- m ;; ret (df_mask df mask))
    /\ filter_rows df' term = (mask <- m ;; ret (df_mask df' mask)).
Proof.
  intros T T' E. exists (str_contains (lowered_titles df) term). split.
  - now apply filter_rows_titled.
  - rewrite E. now apply filter_rows_titled.
Qed.

Lemma title_case_is_ignored_witness :
  let shouted := mkDataFrame ["title"] [[("title", JStr "TEXT")]; [("title", JStr "BUTTON")]] in
  let quiet := mkDataFrame ["title"] [[("title", JStr "text")]; [("title", JStr "button")]] in
  titled shouted = true
  /\ titled quiet = true
  /\ lowered_titles shouted = lowered_titles quiet
  /\ exists m : M (list bool),
       filter_rows shouted "t+" = (mask <- m ;; ret (df_mask shouted mask))
       /\ filter_rows quiet "t+" = (mask <- m ;; ret (df_mask quiet mask)).
Proof.
  intros shouted quiet.
  split; [reflexivity | split; [reflexivity | split; [reflexivity |]]].
  exact (title_case_is_ignored shouted quiet "t+" eq_refl eq_refl eq_refl).
Defined.

Lemma sre_parse_plain_app q rest : forall stack cur,
  forallb (fun c => negb (is_special c)) q = true ->
  sre_parse (q ++ rest) stack cur =
  sre_parse rest stack (mkFrame (alts cur) (rev (map Lit q) ++ items cur)).
Proof.
  induction q as [| c q IH]; intros stack cur H.
  - now destruct cur.
  - cbn [forallb] in H. apply andb_true_iff in H as [Hc Hq].
    apply negb_true_iff, not_special in Hc.
    destruct Hc as (H1 & H2 & H3 & H4 & H5 & H6 & H7 & H8 & H9 & H10 & H11 & H12).
    cbn [app sre_parse].
    rewrite H1, H2, H3, H4, H5, H6, H7, H8, H9, H10, H11, H12. cbn [orb].
    rewrite (IH _ _ Hq). cbn [push_item alts items map rev].
    now rewrite <- app_assoc.
Qed.

Lemma py_lower_app a b : py_lower (a ++ b)%string = (py_lower a ++ py_lower b)%string.
Proof. induction a as [| c a IH]; simpl; [reflexivity | now rewrite IH]. Qed.

Lemma append_not_empty a c : (a ++ String c "")%string <> "".
Proof. destruct a; discriminate. Qed.

(** X11.  Ordinary text followed by one opening parenthesis, one closing
    parenthesis or one backslash is not a pattern: on an index whose titles
    are strings the search block raises [re.error] on such a query, emits
    nothing and returns no frame. *)
Theorem lone_parenthesis_raises df q :
  titled df = true ->
  plain q = true ->
  search df (q ++ "(") = ([], Raise (mkExn ReError "missing ), unterminated subpattern"))
  /\ search df (q ++ ")") = ([], Raise (mkExn ReError "unbalanced parenthesis"))
  /\ search df (q ++ "\") = ([], Raise (mkExn ReError "bad escape (end of pattern)")).
Proof.
  intros T P. rewrite <- plain_lower in P. unfold plain in P.
  assert (G : forall c e,
             lower_char c = c ->
             (forall cur, sre_parse [c] [] cur = re_error e) ->
             search df (q ++ String c "") = ([], Raise (mkExn ReError e))).
  { intros c e Lc Hc. unfold search. rewrite py_lower_app. cbn [py_lower]. rewrite Lc.
    destruct (String.eqb_spec (py_lower q ++ String c "") "") as [E | _];
      [now apply append_not_empty in E |].
    rewrite (filter_rows_error df _ (mkExn ReError e) T); [reflexivity |].
    unfold re_compile. rewrite list_ascii_app. cbn [list_ascii_of_string].
    rewrite (sre_parse_plain_app _ _ _ _ P). apply Hc. }
  repeat split; apply G; reflexivity.
Qed.

Lemma lone_parenthesis_raises_witness :
  titled scenario_index = true
  /\ plain "text" = true
  /\ search scenario_index "text("
     = ([], Raise (mkExn ReError "missing ), unterminated subpattern")).
Proof.
  split; [reflexivity | split; [reflexivity |]].
  exact (proj1 (lone_parenthesis_raises scenario_index "text" eq_refl eq_refl)).
Defined.

(* ================================================================= *)
(** * Further properties of the page *)

Lemma cell_text_printable k row :
  printable k row = true -> cell_text (dict_get k row) = ret (text_of k row).
Proof.
  unfold printable, text_of, cell_text.
  now destruct (dict_get k row) as [[]|].
Qed.

Lemma render_rows_links cols rs :
  has_label "title" cols = true ->
  has_label "full_url" cols = true ->
  forallb row_printable rs = true ->
  render_rows cols rs = (map link_of rs, Return tt).
Proof.
  intros Ct Cu. induction rs as [| row rs IH]; intros H; [reflexivity |].
  cbn [forallb] in H. apply andb_true_iff in H as [Hr Hrs].
  unfold row_printable in Hr. apply andb_true_iff in Hr as [Ht Hu].
  cbn [render_rows map]. unfold row_text. rewrite Ct, Cu.
  rewrite (cell_text_printable _ _ Ht), bind_ret.
  rewrite (cell_text_printable _ _ Hu), bind_ret.
  rewrite (IH Hrs). reflexivity.
Qed.

(** X12.  For a frame that has the columns [title] and [full_url], with a
    string or a missing value in each of their cells, the rendering emits one
    link per row, in the order of the rows, each made of the title and the
    link of the row ([nan] for a missing value), and after them the warning
    exactly when the frame has no row.  A frame that has rows and no [title]
    column makes line 93 raise [KeyError] before anything is shown. *)
Theorem render_lists_every_row df :
  forallb row_printable (rows df) = true ->
  (has_label "title" (columns df) = true ->
   has_label "full_url" (columns df) = true ->
   render df
   = (map link_of (rows df)
        ++ match rows df with
           | [] => [st_warning no_results]
           | _ :: _ => []
           end,
      Return tt))
  /\ (has_label "title" (columns df) = false ->
      rows df <> [] ->
      render df = ([], Raise (mkExn KeyError "'title'"))).
Proof.
  intros H. split.
  - intros Ct Cu. unfold render. rewrite (render_rows_links _ _ Ct Cu H).
    unfold df_empty. destruct (rows df); [reflexivity |].
    destruct (columns df); [discriminate Ct |]. cbn. now rewrite app_nil_r.
  - intros Ct N. unfold render. destruct (rows df) as [| row rs]; [contradiction |].
    cbn [render_rows]. unfold row_text. now rewrite Ct.
Qed.

Lemma render_lists_every_row_witness :
  forallb row_printable (rows scenario_index) = true
  /\ has_label "title" (columns scenario_index) = true
  /\ has_label "full_url" (columns scenario_index) = true
  /\ render scenario_index
     = ([st_markdown "[Text](https://developer.apple.com/text)";
         st_markdown "[TextField](https://developer.apple.com/textfield)";
         st_markdown "[Button](https://developer.apple.com/button)"], Return tt).
Proof.
  split; [reflexivity | split; [reflexivity | split; [reflexivity |]]].
  exact (proj1 (render_lists_every_row scenario_index eq_refl) eq_refl eq_refl).
Defined.

(** X13.  When the loader returns [None], memoized or not, the script stops
    there: it shows what the loader emitted and nothing else, whatever the
    text input holds. *)
Theorem failed_load_shows_no_search c w typed out :
  snd (fetch_github_data c w) = (out, Return None) ->
  script c w typed = (fst (fetch_github_data c w), (out, Return None)).
Proof.
  unfold script. destruct (fetch_github_data c w) as [c' loaded]. cbn [fst snd].
  intros ->. cbn. now rewrite app_nil_r.
Qed.

Lemma failed_load_shows_no_search_witness :
  snd (fetch_github_data empty_cache (Unreachable "down"))
  = ([st_error "Failed to fetch data: down"], Return None)
  /\ script empty_cache (Unreachable "down") "text"
     = (mkCache (Some ([st_error "Failed to fetch data: down"], None)) 1,
        ([st_error "Failed to fetch data: down"], Return None)).
Proof.
  split; [reflexivity |].
  exact (failed_load_shows_no_search empty_cache (Unreachable "down") "text" _ eq_refl).
Defined.

Lemma index_of_titled r recs :
  forallb well_formed (r :: recs) = true -> titled (index_of (r :: recs)) = true.
Proof.
  intros H. unfold titled, index_of. cbn [columns rows]. apply andb_true_iff. split.
  - assert (L : has_label "title" (labels_of (r :: recs)) = true).
    { rewrite has_label_labels_of. cbn [existsb forallb] in *.
      apply andb_true_iff in H as [Hr _]. unfold well_formed, has_str in Hr.
      apply andb_true_iff in Hr as [Ht _]. unfold dict_has.
      now destruct (dict_get "title" r). }
    destruct (has_label "full_url" (labels_of (r :: recs))); [exact L |].
    now rewrite has_label_app, L.
  - rewrite forallb_forall in *. intros row Hin.
    apply in_map_iff in Hin as (x & <- & Hx). specialize (H x Hx).
    unfold well_formed in H. apply andb_true_iff in H as [Ht _].
    unfold has_str in *. now rewrite with_full_url_title.
Qed.

Lemma index_of_printable recs :
  forallb well_formed recs = true ->
  forallb row_printable (rows (index_of recs)) = true.
Proof.
  intros H. rewrite forallb_forall in *. intros row Hin.
  unfold index_of in Hin. cbn [rows] in Hin.
  apply in_map_iff in Hin as (x & <- & Hx). specialize (H x Hx).
  unfold well_formed, has_str in H. apply andb_true_iff in H as [Ht _].
  unfold row_printable, printable.
  rewrite with_full_url_title, with_full_url_link.
  now destruct (dict_get "title" x) as [[]|].
Qed.

Lemma filter_printable (p : record -> bool) rs :
  forallb row_printable rs = true -> forallb row_printable (filter p rs) = true.
Proof.
  intros H. rewrite forallb_forall in *. intros row Hin.
  apply filter_In in Hin as [Hin _]. now apply H.
Qed.

(** X14.  One run of the script from an empty cache, on a source that serves
    one or more well-formed records whose values are all strings, with a
    query of ordinary characters that is not empty: the index is memoized after one run of the body, and
    the page shows the count of the records whose lower-cased title contains
    the lower-cased query, then one link per such record, in the order
    received, then the warning when there is none.  The index itself stays
    the first object; the rows shown are a second one. *)
Theorem script_lists_the_matches st reason u r recs typed :
  passes st = true ->
  forallb textual (r :: recs) = true ->
  forallb well_formed (r :: recs) = true ->
  plain typed = true ->
  typed <> "" ->
  let idx := index_of (r :: recs) in
  let kept := literal_filter idx typed in
  script empty_cache (Answered st reason u (JsonBody (links_payload (r :: recs)))) typed
  = (mkCache (Some ([], Some idx)) 1,
     (found kept (py_lower typed) :: map link_of (rows kept)
        ++ match rows kept with
           | [] => [st_warning no_results]
           | _ :: _ => []
           end,
      Return (Some (mkState [idx; kept] 0 (Some 1))))).
Proof.
  intros Hst Ht Hw P N idx kept.
  assert (L : fetch_github_data_uncached
                (Answered st reason u (JsonBody (links_payload (r :: recs))))
              = ret (Some idx)).
  { apply load_records; [exact Hst | exact Ht | now apply well_formed_has_url]. }
  assert (Ct : has_label "title" (columns kept) = true).
  { pose proof (index_of_titled _ _ Hw) as T. unfold titled in T.
    now apply andb_true_iff in T as [T _]. }
  assert (Cu : has_label "full_url" (columns kept) = true).
  { unfold kept, literal_filter, idx, index_of. cbn [columns].
    destruct (has_label "full_url" (labels_of (r :: recs))) eqn:E; [exact E |].
    rewrite has_label_app, E. reflexivity. }
  set (st1 := mkState [idx; kept] 0 (Some 1)).
  assert (S1 : search_block (mkState [idx] 0 None) typed
               = ([found kept (py_lower typed)], Return st1)).
  { unfold search_block. cbn [objects data_df deref nth_error].
    destruct (String.eqb_spec (py_lower typed) "") as [E | _];
      [destruct typed; [contradiction | discriminate] |].
    rewrite (filter_rows_plain idx typed (index_of_titled _ _ Hw) P), bind_ret.
    reflexivity. }
  assert (Pr : forallb row_printable (rows kept) = true).
  { unfold kept, literal_filter. cbn [rows]. apply filter_printable.
    now apply index_of_printable. }
  assert (Em : df_empty kept = match rows kept with [] => true | _ :: _ => false end).
  { unfold df_empty. destruct (rows kept); [reflexivity |].
    unfold kept, literal_filter, idx, index_of. cbn [columns].
    destruct (has_label "full_url" (labels_of (r :: recs))) eqn:F.
    - destruct (labels_of (r :: recs)); [discriminate F | reflexivity].
    - now destruct (labels_of (r :: recs)). }
  assert (R1 : render_block st1
               = (map link_of (rows kept)
                    ++ match rows kept with
                       | [] => [st_warning no_results]
                       | _ :: _ => []
                       end, Return st1)).
  { unfold render_block, st1. cbn [filtered_df objects deref nth_error].
    unfold render. rewrite (render_rows_links _ _ Ct Cu Pr), Em.
    destruct (rows kept); cbn; now rewrite ?app_nil_r. }
  unfold script, fetch_github_data. cbn [memo empty_cache]. rewrite L.
  unfold ret at 1. cbn [runs empty_cache bind alloc app length].
  rewrite S1. cbn [bind]. rewrite R1. cbn [bind ret app]. now rewrite app_nil_r.
Qed.

Lemma script_lists_the_matches_witness :
  passes 200 = true
  /\ forallb textual scenario = true
  /\ forallb well_formed scenario = true
  /\ plain "Field" = true
  /\ "Field" <> ""
  /\ fst (snd (script empty_cache (serves scenario) "Field"))
     = [st_markdown "Found **1** components matching '*field*'";
        st_markdown "[TextField](https://developer.apple.com/textfield)"].
Proof.
  split; [reflexivity | split; [reflexivity | split; [reflexivity |
    split; [reflexivity | split; [discriminate |]]]]].
  pose proof (script_lists_the_matches 200 "OK" url (entry "Text" "/text")
                [entry "TextField" "/textfield"; entry "Button" "/button"] "Field"
                eq_refl eq_refl eq_refl eq_refl ltac:(discriminate)) as H.
  cbv zeta in H. unfold serves, scenario. rewrite H. reflexivity.
Defined.

(* ================================================================= *)
(** * Further properties of the cache *)

Lemma reruns_memoized ws : forall c out v,
  memo c = Some (out, v) ->
  reruns c ws = (c, repeat (out, Return v) (length ws)).
Proof.
  induction ws as [| w ws IH]; intros c out v H; [reflexivity |].
  cbn [reruns length repeat]. unfold fetch_github_data. rewrite H.
  now rewrite (IH c out v H).
Qed.

(** X15.  Over any number of runs of the script, once the body of the loader
    has returned a value, a frame or the [None] of a reported failure, that
    result is final: every later run gets it, with the widgets of the first,
    and the body has run once, whatever the source does in the meantime. *)
Theorem first_returned_result_is_final c w ws out v :
  memo c = None ->
  fetch_github_data_uncached w = (out, Return v) ->
  reruns c (w :: ws)
  = (mkCache (Some (out, v)) (S (runs c)), repeat (out, Return v) (S (length ws))).
Proof.
  intros Hc Hw. cbn [reruns repeat]. unfold fetch_github_data at 1.
  rewrite Hc, Hw.
  now rewrite (reruns_memoized ws (mkCache (Some (out, v)) (S (runs c))) out v eq_refl).
Qed.

Lemma first_returned_result_is_final_witness :
  let line :=
    st_error ("Failed to fetch data: 503 Server Error: Service Unavailable for url: "
                ++ url)%string in
  memo empty_cache = None
  /\ fetch_github_data_uncached (Answered 503 "Service Unavailable" url (JsonBody JNull))
     = ([line], Return None)
  /\ reruns empty_cache
       [Answered 503 "Service Unavailable" url (JsonBody JNull);
        serves scenario; serves scenario]
     = (mkCache (Some ([line], None)) 1, repeat ([line], Return None) 3).
Proof.
  intros line. split; [reflexivity | split; [reflexivity |]].
  exact (first_returned_result_is_final empty_cache
           (Answered 503 "Service Unavailable" url (JsonBody JNull))
           [serves scenario; serves scenario] [line] None eq_refl eq_refl).
Defined.
